(** * spineplot.spectra: the curve-fitting core of [SpineSpectra]

    A shallow embedding of [src/spineplot/spectra.py]: the model functions
    [crystal_ball], [crystal_ball_mxb] and [gaussian], and the method
    [fit_with_function] that seeds and calls scipy's [curve_fit] and draws
    the fitted curve with its label.

    Numbers.  A float64 is modelled as an exact real number or one of the
    IEEE special values (+inf, -inf, NaN): rounding, overflow and the sign
    of zero are not modelled, the special values and the way numpy's
    arithmetic produces and propagates them are.  A one-dimensional float
    array is a list of such values. *)

From Stdlib Require Import Reals Lra Lia List Bool ZArith String Ascii.
Import ListNotations.

Local Open Scope R_scope.

(** ** float64 values *)

Module Np.

Inductive npfloat : Type :=
| Fin (r : R)
| PInf
| NInf
| NaN.

Definition ndarray : Type := list npfloat.

Definition Rltb (a b : R) : bool := if Rlt_dec a b then true else false.
Definition Rleb (a b : R) : bool := if Rle_dec a b then true else false.
Definition Reqb (a b : R) : bool := if Req_dec_T a b then true else false.

(** largest finite float64, (2 - 2^-52) * 2^1023 *)
Definition float64_max : R := (2 - / 2 ^ 52) * 2 ^ 1023.

(** *** scalar arithmetic, following IEEE 754 on special values *)

Definition neg (a : npfloat) : npfloat :=
  match a with
  | Fin r => Fin (- r)
  | PInf => NInf
  | NInf => PInf
  | NaN => NaN
  end.

Definition add (a b : npfloat) : npfloat :=
  match a, b with
  | NaN, _ | _, NaN => NaN
  | Fin r, Fin s => Fin (r + s)
  | PInf, NInf | NInf, PInf => NaN
  | PInf, _ | _, PInf => PInf
  | NInf, _ | _, NInf => NInf
  end.

Definition sub (a b : npfloat) : npfloat := add a (neg b).

(** the sign of a finite value, for products and quotients with infinity *)
Definition scale_inf (pos : bool) (r : R) : npfloat :=
  if Reqb r 0 then NaN
  else if Bool.eqb pos (Rltb 0 r) then PInf else NInf.

Definition mul (a b : npfloat) : npfloat :=
  match a, b with
  | NaN, _ | _, NaN => NaN
  | Fin r, Fin s => Fin (r * s)
  | PInf, Fin r | Fin r, PInf => scale_inf true r
  | NInf, Fin r | Fin r, NInf => scale_inf false r
  | PInf, PInf | NInf, NInf => PInf
  | PInf, NInf | NInf, PInf => NInf
  end.

(** x / 0 is +-inf (a warning, not an exception, in numpy), 0 / 0 is NaN *)
Definition div (a b : npfloat) : npfloat :=
  match a, b with
  | NaN, _ | _, NaN => NaN
  | Fin r, Fin s =>
      if Reqb s 0 then
        (if Reqb r 0 then NaN else if Rltb 0 r then PInf else NInf)
      else Fin (r / s)
  | Fin _, (PInf | NInf) => Fin 0
  | PInf, Fin s => if Rltb s 0 then NInf else PInf
  | NInf, Fin s => if Rltb s 0 then PInf else NInf
  | (PInf | NInf), (PInf | NInf) => NaN
  end.

Definition abs (a : npfloat) : npfloat :=
  match a with
  | Fin r => Fin (Rabs r)
  | PInf | NInf => PInf
  | NaN => NaN
  end.

Definition exp (a : npfloat) : npfloat :=
  match a with
  | Fin r => Fin (Rtrigo_def.exp r)
  | PInf => PInf
  | NInf => Fin 0
  | NaN => NaN
  end.

Definition sqrt (a : npfloat) : npfloat :=
  match a with
  | Fin r => if Rltb r 0 then NaN else Fin (R_sqrt.sqrt r)
  | PInf => PInf
  | NInf | NaN => NaN
  end.

(** is the real [y] an integer, and is it an odd one *)
Definition is_integer (y : R) : bool := Reqb (IZR (Int_part y)) y.
Definition is_odd_integer (y : R) : bool := is_integer y && Z.odd (Int_part y).

(** [pow x y] is numpy's [x ** y] on floats (C's pow): a negative base with
    a non-integer exponent is NaN, a zero base with a negative exponent is
    +inf, anything to the power 0 is 1 and 1 to any power is 1. *)
Definition pow (x y : npfloat) : npfloat :=
  match x, y with
  | _, Fin s =>
      if Reqb s 0 then Fin 1 else
      match x with
      | NaN => NaN
      | Fin r =>
          if Rltb 0 r then Fin (Rpower r s)
          else if Reqb r 0 then (if Rltb s 0 then PInf else Fin 0)
          else if is_integer s then
                 Fin (if is_odd_integer s then - Rpower (- r) s else Rpower (- r) s)
          else NaN
      | PInf => if Rltb s 0 then Fin 0 else PInf
      | NInf => if Rltb s 0 then Fin 0
                else if is_odd_integer s then NInf else PInf
      end
  | Fin r, NaN => if Reqb r 1 then Fin 1 else NaN
  | _, NaN => NaN
  | NaN, _ => NaN
  | Fin r, PInf =>
      if Reqb (Rabs r) 1 then Fin 1
      else if Rltb (Rabs r) 1 then Fin 0 else PInf
  | Fin r, NInf =>
      if Reqb (Rabs r) 1 then Fin 1
      else if Rltb (Rabs r) 1 then PInf else Fin 0
  | (PInf | NInf), PInf => PInf
  | (PInf | NInf), NInf => Fin 0
  end.

(** *** comparisons: every comparison with NaN is false *)

Definition gtb (a b : npfloat) : bool :=
  match a, b with
  | NaN, _ | _, NaN => false
  | Fin r, Fin s => Rltb s r
  | PInf, (Fin _ | NInf) => true
  | Fin _, NInf => true
  | _, _ => false
  end.

Definition leb (a b : npfloat) : bool :=
  match a, b with
  | NaN, _ | _, NaN => false
  | Fin r, Fin s => Rleb r s
  | NInf, _ => true
  | _, PInf => true
  | _, _ => false
  end.

Definition eqb (a b : npfloat) : bool :=
  match a, b with
  | Fin r, Fin s => Reqb r s
  | PInf, PInf | NInf, NInf => true
  | _, _ => false
  end.

(** *** arrays: an operation with a scalar is broadcast over the array *)

Definition full_like (x : ndarray) (v : npfloat) : ndarray := map (fun _ => v) x.

(** [np.where] on a condition array and two arrays of the same length *)
Fixpoint where_ (c : list bool) (a b : ndarray) : ndarray :=
  match c, a, b with
  | ci :: c', ai :: a', bi :: b' => (if ci then ai else bi) :: where_ c' a' b'
  | _, _, _ => []
  end.

(** [np.nan_to_num(., nan=0.0)]: NaN becomes 0.0 and, by the defaults of
    the other two keywords, an infinity the largest finite float *)
Definition nan_to_num1 (v : npfloat) : npfloat :=
  match v with
  | Fin r => Fin r
  | NaN => Fin 0
  | PInf => Fin float64_max
  | NInf => Fin (- float64_max)
  end.

Definition nan_to_num (a : ndarray) : ndarray := map nan_to_num1 a.

Definition sum (a : ndarray) : npfloat := fold_left add a (Fin 0).

(** [np.diff] of a one-dimensional array: [a[1:] - a[:-1]] *)
Fixpoint diff (a : ndarray) : ndarray :=
  match a with
  | u :: ((v :: _) as t) => sub v u :: diff t
  | _ => []
  end.

Definition is_finite (v : npfloat) : Prop :=
  match v with Fin _ => True | _ => False end.

End Np.

Import Np.

(** ** The model functions (static methods of [SpineSpectra]) *)

(** [crystal_ball(x, alpha, n, mean, sigma, N)] *)
Definition crystal_ball (x : ndarray) (alpha n mean sigma N : npfloat) : ndarray :=
  let z := map (fun xi => div (sub xi mean) sigma) x in
  let abs_alpha := Np.abs alpha in
  if eqb abs_alpha (Fin 0) || leb n (Fin 0) || leb sigma (Fin 0) then
    full_like x NaN
  else
    let A := mul (pow (div n abs_alpha) n)
                 (Np.exp (div (neg (pow abs_alpha (Fin 2))) (Fin 2))) in
    let B := sub (div n abs_alpha) abs_alpha in
    let gaussian_core := map (fun zi => Np.exp (div (neg (pow zi (Fin 2))) (Fin 2))) z in
    let tail_argument := map (fun zi => sub B zi) z in
    let tail := where_ (map (fun t => gtb t (Fin 0)) tail_argument)
                       (map (fun t => mul A (pow t (neg n))) tail_argument)
                       (full_like tail_argument (Fin 0)) in
    let condition := map (fun zi => gtb zi (neg abs_alpha)) z in
    let result := where_ condition gaussian_core tail in
    let result := nan_to_num result in
    map (fun r => mul N r) result.

(** [crystal_ball_mxb(x, alpha, n, mean, sigma, N, m, b)] *)
Definition crystal_ball_mxb (x : ndarray) (alpha n mean sigma N m b : npfloat) : ndarray :=
  map (fun cx => add (add (fst cx) (mul m (snd cx))) b)
      (combine (crystal_ball x alpha n mean sigma N) x).

(** [gaussian(x, mean, sigma, N)]; [prefactor] is computed and not used *)
Definition gaussian (x : ndarray) (mean sigma N : npfloat) : ndarray :=
  let prefactor := div N (mul sigma (Np.sqrt (mul (Fin 2) (Fin PI)))) in
  let exponent := map (fun xi => mul (Fin (-0.5)) (pow (div (sub xi mean) sigma) (Fin 2))) x in
  map (fun e => div (mul (Np.exp e) N) (mul sigma (Np.sqrt (mul (Fin 2) (Fin PI))))) exponent.

(** ** Python-side values, exceptions and text *)

Inductive exn : Type :=
| TypeError
| ValueError
| ZeroDivisionError
| IndexError
| RuntimeError
| OtherError (name : string).

Inductive outcome (A : Type) : Type :=
| Returns (a : A)
| Raises (e : exn).
Arguments Returns {A} a.
Arguments Raises {A} e.

(** the [fit_type] argument: a string, or [None] *)
Inductive pyval : Type :=
| PyNone
| PyStr (s : string).

Definition py_eq_str (v : pyval) (s : string) : bool :=
  match v with
  | PyNone => false
  | PyStr t => String.eqb t s
  end.

Local Open Scope string_scope.

Definition nl : string := String (ascii_of_nat 10) EmptyString.

(** *** [format(v, '.2f')] *)

(** round to the nearest integer, ties to the even one *)
Definition round_half_even (r : R) : Z :=
  let f := Int_part r in
  let d := (r - IZR f)%R in
  if Rltb d (1 / 2) then f
  else if Rltb (1 / 2) d then (f + 1)%Z
  else if Z.even f then f else (f + 1)%Z.

Definition digit (z : Z) : string :=
  String (ascii_of_nat (48 + Z.to_nat z)) EmptyString.

(** the decimal digits of a non-negative integer *)
Fixpoint digits_of (fuel : nat) (z : Z) (acc : string) : string :=
  match fuel with
  | O => acc
  | S fuel' =>
      let acc' := digit (z mod 10) ++ acc in
      if (z <? 10)%Z then acc' else digits_of fuel' (z / 10) acc'
  end.

Definition string_of_Z (z : Z) : string :=
  digits_of (S (Z.to_nat (Z.log2 z))) z "".

Definition format_2f (v : npfloat) : string :=
  match v with
  | NaN => "nan"
  | PInf => "inf"
  | NInf => "-inf"
  | Fin r =>
      let c := round_half_even (Rabs r * 100) in
      (if Rltb r 0 then "-" else "")
        ++ string_of_Z (c / 100) ++ "."
        ++ digit ((c mod 100) / 10) ++ digit (c mod 10)
  end.

(** ** numpy operations that can raise *)

(** [a[i]] *)
Definition getitem (a : ndarray) (i : nat) : outcome npfloat :=
  match nth_error a i with
  | Some v => Returns v
  | None => Raises IndexError
  end.

(** [m[i, j]] on a two-dimensional array, given by its rows *)
Definition getitem2 (m : list ndarray) (i j : nat) : outcome npfloat :=
  match nth_error m i with
  | Some row => getitem row j
  | None => Raises IndexError
  end.

(** [np.average(a, weights=w)]: the shapes must agree and the weights must
    not sum to zero *)
Definition average (a w : ndarray) : outcome npfloat :=
  if negb (Nat.eqb (List.length a) (List.length w)) then Raises TypeError
  else
    let scl := sum w in
    if eqb scl (Fin 0) then Raises ZeroDivisionError
    else Returns (div (sum (map (fun aw => mul (fst aw) (snd aw)) (combine a w))) scl).

(** [a * b] on two one-dimensional arrays: equal lengths, or one of them of
    length 1 and stretched; anything else is a broadcasting error *)
Definition array_mul (a b : ndarray) : outcome ndarray :=
  if Nat.eqb (List.length a) (List.length b) then
    Returns (map (fun ab => mul (fst ab) (snd ab)) (combine a b))
  else
    match a, b with
    | [a0], _ => Returns (map (fun bi => mul a0 bi) b)
    | _, [b0] => Returns (map (fun ai => mul ai b0) a)
    | _, _ => Raises ValueError
    end.

(** [np.linspace(start, stop, num)] *)
Definition linspace (start stop : npfloat) (num : nat) : ndarray :=
  match num with
  | O => []
  | S O => [start]
  | S div_ =>
      let step := div (sub stop start) (Fin (INR div_)) in
      (map (fun i => add (mul (Fin (INR i)) step) start) (seq 0 div_) ++ [stop])%list
  end.

(** ** The world of a fit: the axis, standard output, the solver *)

(** a model function as [curve_fit] calls it: [f(xdata, *params)] *)
Definition callable : Type := ndarray -> ndarray -> outcome ndarray.

(** one [ax.plot(x, y, fmt, label=label)] *)
Record Line : Type := mkLine {
  line_x : ndarray;
  line_y : ndarray;
  line_fmt : string;
  line_label : string
}.

(** one [curve_fit(f, xdata, ydata, p0=p0)] *)
Record SolverCall : Type := mkCall {
  call_f : callable;
  call_xdata : ndarray;
  call_ydata : ndarray;
  call_p0 : ndarray
}.

Record World : Type := mkWorld {
  ax_lines : list Line;          (* what has been drawn on [ax], oldest first *)
  stdout : list ndarray;         (* what has been printed *)
  solver_calls : list SolverCall (* the calls of [curve_fit], oldest first *)
}.

(** a computation that reads and changes the world and may raise *)
Definition M (A : Type) : Type := World -> World * outcome A.

Definition ret {A : Type} (a : A) : M A := fun w => (w, Returns a).

Definition lift {A : Type} (o : outcome A) : M A := fun w => (w, o).

Definition bind {A B : Type} (m : M A) (k : A -> M B) : M B :=
  fun w =>
    match m w with
    | (w', Returns a) => k a w'
    | (w', Raises e) => (w', Raises e)
    end.

Notation "x <- m ;; k" := (bind m (fun x => k))
  (at level 61, m at next level, right associativity).

Definition ax_plot (x y : ndarray) (fmt label : string) : M unit :=
  fun w =>
    (mkWorld (ax_lines w ++ [mkLine x y fmt label])%list (stdout w) (solver_calls w),
     Returns tt).

Definition print (a : ndarray) : M unit :=
  fun w => (mkWorld (ax_lines w) (stdout w ++ [a])%list (solver_calls w), Returns tt).

(** [f(x, *popt)] for the three model functions: a parameter vector of the
    wrong length is a TypeError *)
Definition call_crystal_ball : callable :=
  fun x p =>
    match p with
    | [alpha; n; mean; sigma; N] => Returns (crystal_ball x alpha n mean sigma N)
    | _ => Raises TypeError
    end.

Definition call_crystal_ball_mxb : callable :=
  fun x p =>
    match p with
    | [alpha; n; mean; sigma; N; m; b] =>
        Returns (crystal_ball_mxb x alpha n mean sigma N m b)
    | _ => Raises TypeError
    end.

Definition call_gaussian : callable :=
  fun x p =>
    match p with
    | [mean; sigma; N] => Returns (gaussian x mean sigma N)
    | _ => Raises TypeError
    end.

(** the text [{popt[i]:.2f}$\pm${np.sqrt(pcov[i,i]):.2f}] of a label line *)
Definition pm : string := "$\pm$".

Definition value_pm_error (popt : ndarray) (pcov : list ndarray) (i : nat)
  : outcome string :=
  match getitem popt i with
  | Raises e => Raises e
  | Returns p =>
      match getitem2 pcov i i with
      | Raises e => Raises e
      | Returns c => Returns (format_2f p ++ pm ++ format_2f (Np.sqrt c))
      end
  end.

Section Fit.

(** scipy's [curve_fit(f, xdata, ydata, p0=p0)]: it returns the optimal
    parameters and their covariance matrix, or raises (a RuntimeError when
    the least-squares minimisation fails) *)
Variable curve_fit :
  callable -> ndarray -> ndarray -> ndarray -> outcome (ndarray * list ndarray).

Definition call_curve_fit (f : callable) (xdata ydata p0 : ndarray)
  : M (ndarray * list ndarray) :=
  fun w =>
    (mkWorld (ax_lines w) (stdout w)
             (solver_calls w ++ [mkCall f xdata ydata p0])%list,
     curve_fit f xdata ydata p0).

(** [SpineSpectra.fit_with_function(self, ax, bin_centers, data, bin_edges,
    fit_type, range)]; the axis is [ax_lines] of the world *)
Definition fit_with_function (bin_centers data bin_edges : ndarray)
    (fit_type : pyval) (range : npfloat * npfloat) : M unit :=
  if py_eq_str fit_type "crystal_ball" then
    cb_mean <- lift (average bin_centers data) ;;
    var <- lift (average (map (fun c => pow (sub c cb_mean) (Fin 2)) bin_centers) data) ;;
    let cb_sigma := Np.sqrt var in
    cb_norm <- lift (array_mul data (diff bin_edges)) ;;
    let cb_alpha := Fin 1.5 in
    let cb_n := Fin 5 in
    let initial_guess := [cb_alpha; cb_n; cb_mean; cb_sigma; sum cb_norm] in
    fit <- call_curve_fit call_crystal_ball bin_centers data initial_guess ;;
    let popt := fst fit in
    let pcov := snd fit in
    mu <- lift (value_pm_error popt pcov 2) ;;
    sg <- lift (value_pm_error popt pcov 3) ;;
    al <- lift (value_pm_error popt pcov 0) ;;
    en <- lift (value_pm_error popt pcov 1) ;;
    let cb_label := "Crystal Ball Fit" ++ nl in
    let cb_label := cb_label ++ "$\mu$=" ++ mu ++ nl in
    let cb_label := cb_label ++ "$\sigma$=" ++ sg ++ nl in
    let cb_label := cb_label ++ "$\alpha$=" ++ al ++ nl in
    let cb_label := cb_label ++ "n=" ++ en in
    let x := linspace (fst range) (snd range) 1000 in
    y <- lift (call_crystal_ball x popt) ;;
    ax_plot x y "r-" cb_label
  else if py_eq_str fit_type "crystal_ball_mxb" then
    cb_mean <- lift (average bin_centers data) ;;
    var <- lift (average (map (fun c => pow (sub c cb_mean) (Fin 2)) bin_centers) data) ;;
    let cb_sigma := Np.sqrt var in
    cb_norm <- lift (array_mul data (diff bin_edges)) ;;
    let cb_alpha := Fin 1.5 in
    let cb_n := Fin 5 in
    let m := Fin 0 in
    let b := div (sum data) (Fin (INR (List.length data))) in
    let initial_guess := [cb_alpha; cb_n; cb_mean; cb_sigma; sum cb_norm; m; b] in
    fit <- call_curve_fit call_crystal_ball_mxb bin_centers data initial_guess ;;
    let popt := fst fit in
    let pcov := snd fit in
    _ <- print popt ;;
    mu <- lift (value_pm_error popt pcov 2) ;;
    sg <- lift (value_pm_error popt pcov 3) ;;
    al <- lift (value_pm_error popt pcov 0) ;;
    en <- lift (value_pm_error popt pcov 1) ;;
    em <- lift (value_pm_error popt pcov 5) ;;
    be <- lift (value_pm_error popt pcov 6) ;;
    let cb_label := "Crystal Ball Fit" ++ nl in
    let cb_label := cb_label ++ "$\mu$=" ++ mu ++ nl in
    let cb_label := cb_label ++ "$\sigma$=" ++ sg ++ nl in
    let cb_label := cb_label ++ "$\alpha$=" ++ al ++ nl in
    let cb_label := cb_label ++ "n=" ++ en ++ nl in
    let cb_label := cb_label ++ "m=" ++ em ++ nl in
    let cb_label := cb_label ++ "b=" ++ be in
    let x := linspace (fst range) (snd range) 1000 in
    y <- lift (call_crystal_ball_mxb x popt) ;;
    ax_plot x y "r-" cb_label
  else if py_eq_str fit_type "gaussian" then
    g_mean <- lift (average bin_centers data) ;;
    var <- lift (average (map (fun c => pow (sub c g_mean) (Fin 2)) bin_centers) data) ;;
    let g_sigma := Np.sqrt var in
    g_norm <- lift (array_mul data (diff bin_edges)) ;;
    let initial_guess := [g_mean; g_sigma; sum g_norm] in
    fit <- call_curve_fit call_gaussian bin_centers data initial_guess ;;
    let popt := fst fit in
    let pcov := snd fit in
    mu <- lift (value_pm_error popt pcov 0) ;;
    sg <- lift (value_pm_error popt pcov 1) ;;
    let g_label := "Gaussian Fit" ++ nl in
    let g_label := g_label ++ "$\mu$=" ++ mu ++ nl in
    let g_label := g_label ++ "$\sigma$=" ++ sg in
    let x := linspace (fst range) (snd range) 1000 in
    y <- lift (call_gaussian x popt) ;;
    ax_plot x y "r-" g_label
  else ret tt.

End Fit.

(** ** The annotations: [mark_pot], [mark_preliminary], [draw_error_boxes] *)

(** [np.log10]: -inf at zero, NaN below it *)
Definition log10 (a : npfloat) : npfloat :=
  match a with
  | Fin r => if Rltb 0 r then Fin (ln r / ln 10)
             else if Reqb r 0 then NInf else NaN
  | PInf => PInf
  | NInf | NaN => NaN
  end.

(** [np.floor] *)
Definition floor (a : npfloat) : npfloat :=
  match a with
  | Fin r => Fin (IZR (Int_part r))
  | PInf => PInf
  | NInf => NInf
  | NaN => NaN
  end.

(** [int(.)] of a float: truncation towards zero; an infinity is an
    OverflowError and NaN a ValueError *)
Definition py_int (a : npfloat) : outcome Z :=
  match a with
  | Fin r => Returns (if Rltb r 0 then (- Int_part (- r))%Z else Int_part r)
  | PInf | NInf => Raises (OtherError "OverflowError")
  | NaN => Raises ValueError
  end.

(** [str(.)] of an integer *)
Definition py_str_int (z : Z) : string :=
  if (z <? 0)%Z then "-" ++ string_of_Z (- z) else string_of_Z z.

(** one [ax.text(x=, y=, s=, fontsize=, color=, ...)] *)
Record Text : Type := mkText {
  text_x : npfloat;
  text_y : npfloat;
  text_s : string;
  text_fontsize : nat;
  text_color : string;
  text_horizontalalignment : option string;
  text_verticalalignment : option string;
  text_rotation : option nat
}.

(** [Rectangle((x, y), width, height)] *)
Record Rectangle : Type := mkRectangle {
  rect_xy : npfloat * npfloat;
  rect_width : npfloat;
  rect_height : npfloat
}.

(** [PatchCollection(boxes, **kwargs)]; the keyword arguments are passed
    through as they come *)
Record PatchCollection : Type := mkPatchCollection {
  patches : list Rectangle;
  collection_kwargs : list (string * string)
}.

(** the axis as the annotations see it: its limits, its texts and its
    collections *)
Record Axes : Type := mkAxes {
  get_xlim : npfloat * npfloat;
  get_ylim : npfloat * npfloat;
  ax_texts : list Text;
  ax_collections : list PatchCollection
}.

Definition ax_text (ax : Axes) (t : Text) : Axes :=
  mkAxes (get_xlim ax) (get_ylim ax) (ax_texts ax ++ [t])%list (ax_collections ax).

Definition add_collection (ax : Axes) (pc : PatchCollection) : Axes :=
  mkAxes (get_xlim ax) (get_ylim ax) (ax_texts ax) (ax_collections ax ++ [pc])%list.

(** [SpineSpectra.mark_pot(self, ax, horizontal)]; [exposure] is
    [self._exposure] *)
Definition mark_pot (exposure : npfloat) (ax : Axes) (horizontal : bool)
  : outcome Axes :=
  match py_int (floor (log10 exposure)) with
  | Raises e => Raises e
  | Returns mag =>
      let usepot := div exposure (Fin (powerRZ 10 mag)) in
      let s := format_2f usepot ++ "$\times 10^{" ++ py_str_int mag ++ "}$ POT" in
      let xrange := get_xlim ax in
      let yrange := get_ylim ax in
      if horizontal then
        let usey := add (snd yrange) (mul (Fin 0.02) (sub (snd yrange) (fst yrange))) in
        let usex := sub (snd xrange) (mul (Fin 0.02) (sub (snd xrange) (fst xrange))) in
        Returns (ax_text ax (mkText usex usey s 13 "black" (Some "right") None None))
      else
        let usey := add (snd yrange) (mul (Fin 0.02) (sub (snd yrange) (fst yrange))) in
        let usex := sub (fst xrange) (mul (Fin 0.12) (sub (snd xrange) (fst xrange))) in
        Returns (ax_text ax (mkText usex usey s 13 "black" None (Some "top") (Some 90%nat)))
  end.

(** [SpineSpectra.mark_preliminary(self, ax, label)] *)
Definition mark_preliminary (ax : Axes) (label : string) : Axes :=
  let yrange := get_ylim ax in
  let usey := add (snd yrange) (mul (Fin 0.025) (sub (snd yrange) (fst yrange))) in
  let xrange := get_xlim ax in
  let usex := add (fst xrange) (mul (Fin 0.025) (sub (snd xrange) (fst xrange))) in
  ax_text ax (mkText usex usey label 14 "#d67a11" None None None).

(** the list comprehension of [draw_error_boxes], over the indices [idx] *)
Fixpoint error_boxes (idx : list nat) (x y xerr yerr : ndarray)
  : outcome (list Rectangle) :=
  match idx with
  | [] => Returns []
  | i :: idx' =>
      match getitem x i, getitem xerr i, getitem y i, getitem yerr i with
      | Returns xi, Returns xerri, Returns yi, Returns yerri =>
          match error_boxes idx' x y xerr yerr with
          | Returns boxes =>
              Returns (mkRectangle (sub xi xerri, sub yi yerri)
                                   (mul (Fin 2) (Np.abs xerri))
                                   (mul (Fin 2) yerri) :: boxes)
          | Raises e => Raises e
          end
      | Raises e, _, _, _ => Raises e
      | _, Raises e, _, _ => Raises e
      | _, _, Raises e, _ => Raises e
      | _, _, _, Raises e => Raises e
      end
  end.

(** [SpineSpectra.draw_error_boxes(ax, x, y, xerr, yerr, **kwargs)] *)
Definition draw_error_boxes (ax : Axes) (x y xerr yerr : ndarray)
    (kwargs : list (string * string)) : outcome Axes :=
  match error_boxes (seq 0 (List.length x)) x y xerr yerr with
  | Raises e => Raises e
  | Returns boxes => Returns (add_collection ax (mkPatchCollection boxes kwargs))
  end.

(** * Definitions used to state the properties *)

Local Open Scope R_scope.

(** the value of [crystal_ball] at one element, when the guard lets the
    parameters through *)
Definition crystal_ball_at (alpha n mean sigma N : npfloat) (xi : npfloat) : npfloat :=
  let z := div (sub xi mean) sigma in
  let abs_alpha := Np.abs alpha in
  let A := mul (pow (div n abs_alpha) n)
               (Np.exp (div (neg (pow abs_alpha (Fin 2))) (Fin 2))) in
  let B := sub (div n abs_alpha) abs_alpha in
  mul N (nan_to_num1
           (if gtb z (neg abs_alpha)
            then Np.exp (div (neg (pow z (Fin 2))) (Fin 2))
            else if gtb (sub B z) (Fin 0)
                 then mul A (pow (sub B z) (neg n))
                 else Fin 0)).

Definition guard (alpha n sigma : npfloat) : bool :=
  eqb (Np.abs alpha) (Fin 0) || leb n (Fin 0) || leb sigma (Fin 0).

(** the constants of the power-law tail *)
Definition tail_A (alpha n : R) : R :=
  Rpower (n / Rabs alpha) n * Rtrigo_def.exp (- (Rabs alpha) ^ 2 / 2).

Definition tail_B (alpha n : R) : R := n / Rabs alpha - Rabs alpha.

(** the real number the Crystal Ball function takes at a real [xi] *)
Definition crystal_ball_value (alpha n mean sigma N xi : R) : R :=
  let z := (xi - mean) / sigma in
  N * (if Rlt_dec (- Rabs alpha) z then Rtrigo_def.exp (- z ^ 2 / 2)
       else if Rlt_dec 0 (tail_B alpha n - z)
            then tail_A alpha n * Rpower (tail_B alpha n - z) (- n)
            else 0).

(** [keeps proj m]: running [m] does not change the part [proj] of the world *)
Definition keeps {A T : Type} (proj : World -> T) (m : M A) : Prop :=
  forall w, proj (fst (m w)) = proj w.

(** a solver that never converges, and an empty world *)
Definition failing_solver
  : callable -> ndarray -> ndarray -> ndarray -> outcome (ndarray * list ndarray) :=
  fun _ _ _ _ => Raises RuntimeError.

Definition empty_world : World := mkWorld [] [] [].

(** the moments of the histogram, as the specification words them *)
Definition Rsum (l : list R) : R := fold_right Rplus 0 l.

(** average of [a] weighted by [w] *)
Definition weighted_average (a w : list R) : R :=
  Rsum (map (fun p => fst p * snd p) (combine a w)) / Rsum w.

(** variance of [a] about [mu] weighted by [w] *)
Definition weighted_variance (a w : list R) (mu : R) : R :=
  weighted_average (map (fun ai => (ai - mu) ^ 2) a) w.

(** sum over the bins i of counts[i] * (edges[i+1] - edges[i]) *)
Definition histogram_integral (counts edges : list R) : R :=
  Rsum (map (fun i => nth i counts 0 * (nth (S i) edges 0 - nth i edges 0))
            (seq 0 (List.length counts))).

Definition mean_of (l : list R) : R := Rsum l / INR (List.length l).

(** [np.diff] on real numbers *)
Fixpoint Rdiff (a : list R) : list R :=
  match a with
  | u :: ((v :: _) as t) => (v - u) :: Rdiff t
  | _ => []
  end.

(** the histogram of the end-to-end scenario *)
Definition scenario_centers : list R := [-2; -1; 0; 1; 2].
Definition scenario_counts : list R := [1; 5; 10; 5; 1].
Definition scenario_edges : list R := [-2.5; -1.5; -0.5; 0.5; 1.5; 2.5].

(** the fit stops with an error and the solver has not been called *)
Definition rejected_before_solving
    (curve_fit : callable -> ndarray -> ndarray -> ndarray -> outcome (ndarray * list ndarray))
    (bin_centers data bin_edges : ndarray) (fit_type : pyval)
    (range : npfloat * npfloat) (w : World) : Prop :=
  let r := fit_with_function curve_fit bin_centers data bin_edges fit_type range w in
  (exists err, snd r = Raises err) /\ solver_calls (fst r) = solver_calls w.

(** [piece] occurs in [label] *)
Definition embeds (label piece : string) : Prop :=
  exists before after, label = before ++ piece ++ after.

Fixpoint is_prefix (p s : string) : bool :=
  match p, s with
  | EmptyString, _ => true
  | String a p', String b s' => Ascii.eqb a b && is_prefix p' s'
  | String _ _, EmptyString => false
  end.

Fixpoint occurs (p s : string) : bool :=
  is_prefix p s
  || match s with
     | EmptyString => false
     | String _ s' => occurs p s'
     end.

(** the parameters a label shows, by their index in the parameter vector *)
Definition shown_parameters (fit_type : pyval) : list nat :=
  if py_eq_str fit_type "crystal_ball" then [2; 3; 0; 1]%nat
  else if py_eq_str fit_type "crystal_ball_mxb" then [2; 3; 0; 1; 5; 6]%nat
  else if py_eq_str fit_type "gaussian" then [0; 1]%nat
  else [].

(** a solver that converges on the scenario: mean 0, sigma 1, N 22, each
    with variance 1 *)
Definition scenario_popt : ndarray := [Fin 0; Fin 1; Fin 22].

Definition scenario_pcov : list ndarray :=
  [[Fin 1; Fin 0; Fin 0]; [Fin 0; Fin 1; Fin 0]; [Fin 0; Fin 0; Fin 1]].

Definition scenario_solver
  : callable -> ndarray -> ndarray -> ndarray -> outcome (ndarray * list ndarray) :=
  fun _ _ _ _ => Returns (scenario_popt, scenario_pcov).

Definition scenario_label : string :=
  "Gaussian Fit" ++ nl ++ "$\mu$=0.00$\pm$1.00" ++ nl ++ "$\sigma$=1.00$\pm$1.00".

Definition scenario_line : Line :=
  let x := linspace (Fin (-3)) (Fin 3) 1000 in
  mkLine x (gaussian x (Fin 0) (Fin 1) (Fin 22)) "r-" scenario_label.

(** every parameter of the fitted vector is in the label, each with its
    standard error *)
Definition label_embeds_all (popt : ndarray) (pcov : list ndarray) (label : string)
  : Prop :=
  forall i : nat, (i < List.length popt)%nat ->
    exists p v,
      getitem popt i = Returns p
      /\ getitem2 pcov i i = Returns v
      /\ embeds label (format_2f p ++ pm ++ format_2f (Np.sqrt v)).

(** the model function a fit of the given kind fits and draws *)
Definition model_function (fit_type : pyval) : callable :=
  if py_eq_str fit_type "crystal_ball" then call_crystal_ball
  else if py_eq_str fit_type "crystal_ball_mxb" then call_crystal_ball_mxb
  else call_gaussian.

(** the three kinds of fit *)
Definition fit_kinds : list pyval :=
  [PyStr "crystal_ball"; PyStr "crystal_ball_mxb"; PyStr "gaussian"].

(** the edges of a rectangle anchored at [rect_xy] *)
Definition rect_left (r : Rectangle) : npfloat := fst (rect_xy r).
Definition rect_right (r : Rectangle) : npfloat := add (fst (rect_xy r)) (rect_width r).
Definition rect_bottom (r : Rectangle) : npfloat := snd (rect_xy r).
Definition rect_top (r : Rectangle) : npfloat := add (snd (rect_xy r)) (rect_height r).

(** an axis with no text and no collection *)
Definition empty_axes (xlim ylim : npfloat * npfloat) : Axes :=
  mkAxes xlim ylim [] [].

(** where the initial guess keeps the mean and sigma, and where the
    normalization: in front for the Gaussian, after alpha and n otherwise *)
Definition moments_of_guess (fit_type : pyval) (p0 : ndarray) : ndarray :=
  firstn 2 (skipn (if py_eq_str fit_type "gaussian" then 0 else 2) p0).

Definition normalization_of_guess (fit_type : pyval) (p0 : ndarray) : npfloat :=
  nth (if py_eq_str fit_type "gaussian" then 2 else 4) p0 NaN.

(** the box of the i-th point *)
Definition box_at (x y xerr yerr : ndarray) (i : nat) : Rectangle :=
  mkRectangle (sub (nth i x NaN) (nth i xerr NaN), sub (nth i y NaN) (nth i yerr NaN))
              (mul (Fin 2) (Np.abs (nth i xerr NaN)))
              (mul (Fin 2) (nth i yerr NaN)).

(** * Properties *)

Local Open Scope R_scope.

(** ** Comparisons on reals *)

Lemma Rltb_true (a b : R) : a < b -> Rltb a b = true.
Proof. intros H. unfold Rltb. destruct (Rlt_dec a b); [reflexivity | contradiction]. Qed.

Lemma Rltb_false (a b : R) : b <= a -> Rltb a b = false.
Proof. intros H. unfold Rltb. destruct (Rlt_dec a b); [lra | reflexivity]. Qed.

Lemma Rleb_true (a b : R) : a <= b -> Rleb a b = true.
Proof. intros H. unfold Rleb. destruct (Rle_dec a b); [reflexivity | contradiction]. Qed.

Lemma Rleb_false (a b : R) : b < a -> Rleb a b = false.
Proof. intros H. unfold Rleb. destruct (Rle_dec a b); [lra | reflexivity]. Qed.

Lemma Reqb_true (a b : R) : a = b -> Reqb a b = true.
Proof. intros H. unfold Reqb. destruct (Req_dec_T a b); [reflexivity | contradiction]. Qed.

Lemma Reqb_false (a b : R) : a <> b -> Reqb a b = false.
Proof. intros H. unfold Reqb. destruct (Req_dec_T a b); [contradiction | reflexivity]. Qed.

Lemma Int_part_IZR (z : Z) : Int_part (IZR z) = z.
Proof. symmetry. apply Int_part_spec. lra. Qed.

(** ** Powers *)

Lemma Rpower_two (r : R) : 0 < r -> Rpower r 2 = r * r.
Proof.
  intros H. replace 2 with (INR 2) by (simpl; lra).
  rewrite Rpower_pow by assumption. simpl. ring.
Qed.

Lemma is_integer_two : is_integer 2 = true.
Proof. unfold is_integer. rewrite Int_part_IZR. apply Reqb_true. reflexivity. Qed.

Lemma is_odd_integer_two : is_odd_integer 2 = false.
Proof. unfold is_odd_integer. rewrite is_integer_two, Int_part_IZR. reflexivity. Qed.

(** squaring with [** 2] *)
Lemma pow_square (r : R) : pow (Fin r) (Fin 2) = Fin (r * r).
Proof.
  unfold pow. rewrite (Reqb_false 2 0) by lra.
  destruct (Rlt_dec 0 r) as [Hpos | Hnpos].
  - rewrite (Rltb_true 0 r) by assumption. now rewrite Rpower_two.
  - rewrite (Rltb_false 0 r) by lra.
    destruct (Req_dec_T r 0) as [-> | Hnz].
    + rewrite (Reqb_true 0 0) by reflexivity.
      rewrite (Rltb_false 2 0) by lra. f_equal. ring.
    + rewrite (Reqb_false r 0) by assumption.
      rewrite is_integer_two, is_odd_integer_two.
      rewrite Rpower_two by lra. f_equal. ring.
Qed.

(** a positive base to a non-zero real power *)
Lemma pow_positive (r s : R) : 0 < r -> s <> 0 -> pow (Fin r) (Fin s) = Fin (Rpower r s).
Proof.
  intros Hr Hs. unfold pow.
  rewrite (Reqb_false s 0) by assumption.
  now rewrite (Rltb_true 0 r).
Qed.



(** ** Arrays *)

Lemma where_map {T : Type} (c : T -> bool) (a b : T -> npfloat) (l : list T) :
  where_ (map c l) (map a l) (map b l) = map (fun t => if c t then a t else b t) l.
Proof.
  induction l as [| t l IH]; simpl; [reflexivity | now rewrite IH].
Qed.

Lemma full_like_repeat (x : ndarray) (v : npfloat) :
  full_like x v = repeat v (List.length x).
Proof.
  unfold full_like. induction x as [| a x IH]; simpl; [reflexivity | now rewrite IH].
Qed.

(** ** The Crystal Ball function, element by element *)

Lemma crystal_ball_guarded (x : ndarray) (alpha n mean sigma N : npfloat) :
  guard alpha n sigma = true ->
  crystal_ball x alpha n mean sigma N = full_like x NaN.
Proof.
  unfold guard, crystal_ball. intros ->. reflexivity.
Qed.

Lemma crystal_ball_elementwise (x : ndarray) (alpha n mean sigma N : npfloat) :
  guard alpha n sigma = false ->
  crystal_ball x alpha n mean sigma N = map (crystal_ball_at alpha n mean sigma N) x.
Proof.
  unfold guard, crystal_ball. intros ->.
  unfold full_like, nan_to_num.
  rewrite !map_map.
  rewrite (where_map (fun xi => gtb (sub (sub (div n (Np.abs alpha)) (Np.abs alpha))
                                         (div (sub xi mean) sigma)) (Fin 0))).
  rewrite where_map, !map_map.
  reflexivity.
Qed.

Lemma abs_Fin (r : R) : Np.abs (Fin r) = Fin (Rabs r).
Proof. reflexivity. Qed.

Lemma neg_Fin (r : R) : neg (Fin r) = Fin (- r).
Proof. reflexivity. Qed.

Lemma add_Fin (r s : R) : add (Fin r) (Fin s) = Fin (r + s).
Proof. reflexivity. Qed.

Lemma sub_Fin (r s : R) : sub (Fin r) (Fin s) = Fin (r - s).
Proof. reflexivity. Qed.

Lemma mul_Fin (r s : R) : mul (Fin r) (Fin s) = Fin (r * s).
Proof. reflexivity. Qed.

Lemma exp_Fin (r : R) : Np.exp (Fin r) = Fin (Rtrigo_def.exp r).
Proof. reflexivity. Qed.

Lemma gtb_Fin (r s : R) : gtb (Fin r) (Fin s) = Rltb s r.
Proof. reflexivity. Qed.

Lemma nan_to_num1_Fin (r : R) : nan_to_num1 (Fin r) = Fin r.
Proof. reflexivity. Qed.

Lemma div_Fin (r s : R) : s <> 0 -> div (Fin r) (Fin s) = Fin (r / s).
Proof. intros H. unfold div. now rewrite (Reqb_false s 0). Qed.

Lemma guard_valid (alpha n sigma : R) :
  Rabs alpha <> 0 -> 0 < n -> 0 < sigma ->
  guard (Fin alpha) (Fin n) (Fin sigma) = false.
Proof.
  intros Ha Hn Hs. unfold guard. simpl.
  rewrite (Reqb_false (Rabs alpha) 0) by assumption.
  rewrite (Rleb_false n 0), (Rleb_false sigma 0) by assumption.
  reflexivity.
Qed.

Lemma crystal_ball_at_real (alpha n mean sigma N xi : R) :
  Rabs alpha <> 0 -> 0 < n -> 0 < sigma ->
  crystal_ball_at (Fin alpha) (Fin n) (Fin mean) (Fin sigma) (Fin N) (Fin xi)
  = Fin (crystal_ball_value alpha n mean sigma N xi).
Proof.
  intros Ha Hn Hs.
  assert (Hapos : 0 < Rabs alpha) by (pose proof (Rabs_pos alpha); lra).
  assert (Hq : 0 < n / Rabs alpha) by (apply Rdiv_lt_0_compat; assumption).
  unfold crystal_ball_at, crystal_ball_value, tail_A, tail_B.
  rewrite abs_Fin, !sub_Fin, !neg_Fin.
  rewrite (div_Fin (xi - mean) sigma) by lra.
  rewrite (div_Fin n (Rabs alpha)) by assumption.
  rewrite !pow_square, !sub_Fin, !neg_Fin.
  rewrite (pow_positive (n / Rabs alpha) n) by lra.
  rewrite !(div_Fin _ 2) by lra.
  rewrite !exp_Fin, !mul_Fin, !gtb_Fin.
  set (z := (xi - mean) / sigma).
  set (t := n / Rabs alpha - Rabs alpha - z).
  unfold Rltb.
  destruct (Rlt_dec (- Rabs alpha) z) as [Hcore | Htail].
  - rewrite nan_to_num1_Fin, mul_Fin. now rewrite <- Rsqr_pow2.
  - destruct (Rlt_dec 0 t) as [Ht | Ht].
    + rewrite (pow_positive t (- n)) by lra.
      rewrite !mul_Fin, nan_to_num1_Fin, mul_Fin.
      now rewrite <- Rsqr_pow2.
    + now rewrite nan_to_num1_Fin, mul_Fin.
Qed.

Lemma crystal_ball_real (x : list R) (alpha n mean sigma N : R) :
  Rabs alpha <> 0 -> 0 < n -> 0 < sigma ->
  crystal_ball (map Fin x) (Fin alpha) (Fin n) (Fin mean) (Fin sigma) (Fin N)
  = map Fin (map (crystal_ball_value alpha n mean sigma N) x).
Proof.
  intros Ha Hn Hs.
  rewrite crystal_ball_elementwise by (apply guard_valid; assumption).
  rewrite !map_map. apply map_ext. intros xi.
  apply crystal_ball_at_real; assumption.
Qed.


Lemma exp_nonpos_le_1 (u : R) : u <= 0 -> Rtrigo_def.exp u <= 1.
Proof.
  intros [Hlt | ->].
  - rewrite <- exp_0. left. now apply exp_increasing.
  - rewrite exp_0. lra.
Qed.



(** ** C1: the three pieces of the Crystal Ball function *)



(** ** C9: the range of the Crystal Ball function *)



(** two values: N at the peak, and N exp(-1/2) / 4 three sigma below it
    for alpha = 1, n = 2 *)
Example crystal_ball_two_values :
  crystal_ball (map Fin [0; -3]) (Fin 1) (Fin 2) (Fin 0) (Fin 1) (Fin 3)
  = [Fin 3; Fin (3 * (Rtrigo_def.exp (- 1 / 2) / 4))].
Proof.
  rewrite crystal_ball_real by (rewrite ?Rabs_R1; lra).
  cbn [map]. unfold crystal_ball_value, tail_A, tail_B. rewrite Rabs_R1.
  repeat match goal with
         | |- context [Rlt_dec ?a ?b] =>
             destruct (Rlt_dec a b); try (exfalso; lra)
         end.
  replace (- ((0 - 0) / 1) ^ 2 / 2) with 0 by (simpl; lra).
  replace (- 1 ^ 2 / 2) with (- 1 / 2) by (simpl; lra).
  replace (2 / 1) with 2 by lra.
  replace (2 - 1 - (-3 - 0) / 1) with 4 by lra.
  rewrite exp_0, Rpower_Ropp, !Rpower_two by lra.
  f_equal; [f_equal; lra |]. f_equal. f_equal. field.
Qed.

(** ** C2: invalid parameters *)

(** C2. When |alpha| == 0 or n <= 0 or sigma <= 0 (as float comparisons),
    the call [crystal_ball(x, alpha, n, mean, sigma, N)] returns, and does
    not raise, an array of the length of x all of whose elements are NaN;
    sigma = 0 is such a case. *)
Theorem crystal_ball_invalid_parameters (x : ndarray) (alpha n mean sigma N : npfloat) :
  eqb (Np.abs alpha) (Fin 0) = true \/ leb n (Fin 0) = true \/ leb sigma (Fin 0) = true ->
  call_crystal_ball x [alpha; n; mean; sigma; N] = Returns (repeat NaN (List.length x)).
Proof.
  intros H. unfold call_crystal_ball.
  rewrite crystal_ball_guarded, full_like_repeat; [reflexivity |].
  unfold guard.
  destruct H as [-> | [-> | ->]]; rewrite ?orb_true_r; reflexivity.
Qed.

Lemma crystal_ball_invalid_parameters_witness :
  leb (Fin 0) (Fin 0) = true
  /\ call_crystal_ball [Fin 0; Fin 1; NaN] [Fin 1.5; Fin 5; Fin 0; Fin 0; Fin 1]
     = Returns [NaN; NaN; NaN].
Proof.
  assert (H : leb (Fin 0) (Fin 0) = true) by (apply Rleb_true; lra).
  split; [exact H |].
  exact (crystal_ball_invalid_parameters [Fin 0; Fin 1; NaN]
           (Fin 1.5) (Fin 5) (Fin 0) (Fin 0) (Fin 1) (or_intror (or_intror H))).
Defined.

(** ** C6: the linear background *)

Lemma crystal_ball_length (x : ndarray) (alpha n mean sigma N : npfloat) :
  List.length (crystal_ball x alpha n mean sigma N) = List.length x.
Proof.
  destruct (guard alpha n sigma) eqn:Hg.
  - rewrite crystal_ball_guarded by assumption. unfold full_like. apply length_map.
  - rewrite crystal_ball_elementwise by assumption. apply length_map.
Qed.

Lemma add_no_background (c : npfloat) (r : R) :
  add (add c (mul (Fin 0) (Fin r))) (Fin 0) = c.
Proof. destruct c; simpl; try reflexivity. f_equal. ring. Qed.

Lemma map_combine_fst (a x : ndarray) :
  List.length a = List.length x -> Forall is_finite x ->
  map (fun cx => add (add (fst cx) (mul (Fin 0) (snd cx))) (Fin 0)) (combine a x) = a.
Proof.
  revert x. induction a as [| c a IH]; intros [| xi x] Hlen Hfin;
    try discriminate Hlen; [reflexivity |].
  inversion Hfin as [| ? ? Hxi Hx]; subst.
  destruct xi as [r | | |]; try contradiction.
  cbn [combine map fst snd].
  rewrite add_no_background, IH; [reflexivity | | assumption].
  now injection Hlen.
Qed.

(** C6. [crystal_ball_mxb(x, alpha, n, mean, sigma, N, m, b)] is, element
    by element, [crystal_ball(x, alpha, n, mean, sigma, N) + m*x + b], for
    every array and every parameter vector; for an array of real numbers
    and m = 0, b = 0 it is [crystal_ball(x, alpha, n, mean, sigma, N)]
    itself. *)
Theorem crystal_ball_mxb_decomposition
    (x : ndarray) (alpha n mean sigma N m b : npfloat) :
  (List.length (crystal_ball_mxb x alpha n mean sigma N m b) = List.length x
   /\ forall i : nat, (i < List.length x)%nat ->
        nth i (crystal_ball_mxb x alpha n mean sigma N m b) NaN
        = add (add (nth i (crystal_ball x alpha n mean sigma N) NaN)
                   (mul m (nth i x NaN))) b)
  /\ (Forall is_finite x ->
      crystal_ball_mxb x alpha n mean sigma N (Fin 0) (Fin 0)
      = crystal_ball x alpha n mean sigma N).
Proof.
  pose proof (crystal_ball_length x alpha n mean sigma N) as Hlen.
  unfold crystal_ball_mxb. repeat split.
  - rewrite length_map, length_combine, Hlen. apply Nat.min_id.
  - intros i Hi.
    set (f := fun cx : npfloat * npfloat => add (add (fst cx) (mul m (snd cx))) b).
    rewrite (nth_indep _ NaN (f (NaN, NaN)))
      by (rewrite length_map, length_combine, Hlen, Nat.min_id; exact Hi).
    rewrite map_nth, combine_nth by exact Hlen. reflexivity.
  - intros Hfin. apply map_combine_fst; assumption.
Qed.

Lemma crystal_ball_mxb_decomposition_witness :
  Forall is_finite [Fin 0; Fin (-3)]
  /\ crystal_ball_mxb [Fin 0; Fin (-3)] (Fin 1) (Fin 2) (Fin 0) (Fin 1) (Fin 1)
                      (Fin 0) (Fin 0)
     = crystal_ball [Fin 0; Fin (-3)] (Fin 1) (Fin 2) (Fin 0) (Fin 1) (Fin 1).
Proof.
  assert (H : Forall is_finite [Fin 0; Fin (-3)]) by (repeat constructor).
  split; [exact H |].
  exact (proj2 (crystal_ball_mxb_decomposition [Fin 0; Fin (-3)]
                  (Fin 1) (Fin 2) (Fin 0) (Fin 1) (Fin 1) (Fin 0) (Fin 0)) H).
Defined.

(** outside the real numbers the last statement stops: at an infinite
    element 0*x is NaN *)
Example crystal_ball_mxb_at_infinity :
  nth 0 (crystal_ball_mxb [PInf] (Fin 1) (Fin 2) (Fin 0) (Fin 1) (Fin 1) (Fin 0) (Fin 0)) (Fin 0)
  = NaN.
Proof.
  unfold crystal_ball_mxb.
  destruct (crystal_ball [PInf] (Fin 1) (Fin 2) (Fin 0) (Fin 1) (Fin 1))
    as [| c l] eqn:Hc.
  - pose proof (crystal_ball_length [PInf] (Fin 1) (Fin 2) (Fin 0) (Fin 1) (Fin 1)) as Hl.
    rewrite Hc in Hl. discriminate.
  - simpl. unfold scale_inf. rewrite (Reqb_true 0 0) by reflexivity.
    destruct c; reflexivity.
Qed.

(** ** C7: the Gaussian *)

Lemma sqrt_two_pi : Np.sqrt (mul (Fin 2) (Fin PI)) = Fin (R_sqrt.sqrt (2 * PI)).
Proof.
  rewrite mul_Fin. unfold Np.sqrt.
  rewrite Rltb_false; [reflexivity |]. pose proof PI_RGT_0. lra.
Qed.

Lemma sqrt_two_pi_pos : 0 < R_sqrt.sqrt (2 * PI).
Proof. apply sqrt_lt_R0. pose proof PI_RGT_0. lra. Qed.

Lemma gaussian_real (x : list R) (mean sigma N : R) :
  0 < sigma ->
  gaussian (map Fin x) (Fin mean) (Fin sigma) (Fin N)
  = map (fun xi => Fin (N * Rtrigo_def.exp (-0.5 * ((xi - mean) / sigma) ^ 2)
                        / (sigma * R_sqrt.sqrt (2 * PI)))) x.
Proof.
  intros Hs. pose proof sqrt_two_pi_pos as Hpi.
  unfold gaussian. rewrite sqrt_two_pi, mul_Fin, !map_map.
  apply map_ext. intros xi.
  rewrite sub_Fin, div_Fin by lra.
  rewrite pow_square, mul_Fin, exp_Fin, mul_Fin.
  rewrite div_Fin by (apply Rgt_not_eq; apply Rmult_lt_0_compat; lra).
  rewrite <- Rsqr_pow2. unfold Rsqr. f_equal.
  rewrite (Rmult_comm N). reflexivity.
Qed.

(** C7. For sigma > 0 the Gaussian is
    N exp(-0.5 ((x - mean)/sigma)^2) / (sigma sqrt(2 pi)) at every real x,
    and N / (sigma sqrt(2 pi)) at x = mean. *)
Theorem gaussian_formula (x : list R) (mean sigma N : R) :
  0 < sigma ->
  gaussian (map Fin x) (Fin mean) (Fin sigma) (Fin N)
  = map (fun xi => Fin (N * Rtrigo_def.exp (-0.5 * ((xi - mean) / sigma) ^ 2)
                        / (sigma * R_sqrt.sqrt (2 * PI)))) x
  /\ gaussian [Fin mean] (Fin mean) (Fin sigma) (Fin N)
     = [Fin (N / (sigma * R_sqrt.sqrt (2 * PI)))].
Proof.
  intros Hs. split; [apply gaussian_real; assumption |].
  change [Fin mean] with (map Fin [mean]).
  rewrite gaussian_real by assumption. cbn [map]. do 2 f_equal.
  replace (-0.5 * ((mean - mean) / sigma) ^ 2) with 0 by (field; lra).
  now rewrite exp_0, Rmult_1_r.
Qed.

Lemma gaussian_formula_witness :
  0 < 2
  /\ gaussian [Fin 1] (Fin 1) (Fin 2) (Fin 22)
     = [Fin (22 / (2 * R_sqrt.sqrt (2 * PI)))].
Proof.
  assert (H : 0 < 2) by lra.
  split; [exact H |].
  exact (proj2 (gaussian_formula [] 1 2 22 H)).
Defined.

(** ** Fits: what a computation leaves untouched *)

Local Open Scope string_scope.

Lemma keeps_ret {A T : Type} (proj : World -> T) (a : A) : keeps proj (ret a).
Proof. intros w. reflexivity. Qed.

Lemma keeps_lift {A T : Type} (proj : World -> T) (o : outcome A) : keeps proj (lift o).
Proof. intros w. reflexivity. Qed.

Lemma keeps_bind {A B T : Type} (proj : World -> T) (m : M A) (k : A -> M B) :
  keeps proj m -> (forall a, keeps proj (k a)) -> keeps proj (bind m k).
Proof.
  intros Hm Hk w. unfold bind.
  specialize (Hm w). destruct (m w) as [w1 [a | e]]; simpl in *.
  - rewrite Hk. exact Hm.
  - exact Hm.
Qed.

Lemma keeps_calls_plot (x y : ndarray) (fmt label : string) :
  keeps solver_calls (ax_plot x y fmt label).
Proof. intros w. reflexivity. Qed.

Lemma keeps_calls_print (a : ndarray) : keeps solver_calls (print a).
Proof. intros w. reflexivity. Qed.

Create HintDb keeps.
#[local] Hint Resolve keeps_ret keeps_lift keeps_calls_plot keeps_calls_print : keeps.

Ltac keeps_tac :=
  repeat (apply keeps_bind; [auto with keeps | intros ?]); auto with keeps.

Lemma bind_lift {A B : Type} (o : outcome A) (k : A -> M B) (w : World) :
  bind (lift o) k w = match o with
                      | Returns a => k a w
                      | Raises e => (w, Raises e)
                      end.
Proof. unfold bind, lift. destruct o; reflexivity. Qed.

Lemma py_eq_str_false (v : pyval) (s : string) : v <> PyStr s -> py_eq_str v s = false.
Proof.
  intros H. destruct v as [| t]; [reflexivity |]. simpl.
  apply String.eqb_neq. intros ->. now apply H.
Qed.

Lemma list_neq_snoc {T : Type} (l : list T) (a : T) : l <> (l ++ [a])%list.
Proof.
  intros H. apply (f_equal (@List.length T)) in H.
  rewrite length_app in H. simpl in H. lia.
Qed.

(** ** C10: any other [fit_type] *)

(** C10. For a [fit_type] that is none of 'crystal_ball',
    'crystal_ball_mxb', 'gaussian' ([None] and 'Gaussian' included), the
    method leaves the world as it is (nothing drawn, nothing printed, the
    solver not called) and returns [None] without raising. *)
Theorem fit_with_function_other_fit_type
    (curve_fit : callable -> ndarray -> ndarray -> ndarray -> outcome (ndarray * list ndarray))
    (bin_centers data bin_edges : ndarray) (fit_type : pyval)
    (range : npfloat * npfloat) (w : World) :
  fit_type <> PyStr "crystal_ball" ->
  fit_type <> PyStr "crystal_ball_mxb" ->
  fit_type <> PyStr "gaussian" ->
  fit_with_function curve_fit bin_centers data bin_edges fit_type range w
  = (w, Returns tt).
Proof.
  intros H1 H2 H3. unfold fit_with_function.
  rewrite !py_eq_str_false by assumption. reflexivity.
Qed.

Lemma fit_with_function_other_fit_type_witness :
  fit_with_function failing_solver [Fin 0] [Fin 1] [Fin 0; Fin 1] PyNone
                    (Fin (-1), Fin 1) empty_world
  = (empty_world, Returns tt)
  /\ fit_with_function failing_solver [Fin 0] [Fin 1] [Fin 0; Fin 1] (PyStr "Gaussian")
                       (Fin (-1), Fin 1) empty_world
     = (empty_world, Returns tt).
Proof.
  split.
  - apply (fit_with_function_other_fit_type failing_solver); discriminate.
  - apply (fit_with_function_other_fit_type failing_solver); discriminate.
Defined.

(** ** C8: a solver that does not converge *)

Section SolverFailure.

Variable curve_fit :
  callable -> ndarray -> ndarray -> ndarray -> outcome (ndarray * list ndarray).

(** what happens from the call of the solver on, when that call raises *)
Lemma raise_at_solver (f : callable) (xdata ydata p0 : ndarray)
    (k : ndarray * list ndarray -> M unit)
    (w w' : World) (o : outcome unit) (call : SolverCall) (err : exn) :
  (forall fit, keeps solver_calls (k fit)) ->
  bind (call_curve_fit curve_fit f xdata ydata p0) k w = (w', o) ->
  solver_calls w' = (solver_calls w ++ [call])%list ->
  curve_fit (call_f call) (call_xdata call) (call_ydata call) (call_p0 call)
  = Raises err ->
  o = Raises err /\ ax_lines w' = ax_lines w /\ stdout w' = stdout w.
Proof.
  intros Hk Hrun Hcalls Herr.
  unfold bind, call_curve_fit in Hrun.
  destruct (curve_fit f xdata ydata p0) as [fit | e] eqn:Hcf.
  - exfalso.
    assert (Hw' : w' = fst (k fit (mkWorld (ax_lines w) (stdout w)
                                     (solver_calls w ++ [mkCall f xdata ydata p0])%list)))
      by now rewrite Hrun.
    rewrite Hw', Hk in Hcalls. simpl in Hcalls.
    apply app_inv_head in Hcalls. injection Hcalls as <-. simpl in Herr.
    congruence.
  - injection Hrun as <- <-. simpl in Hcalls.
    apply app_inv_head in Hcalls. injection Hcalls as <-. simpl in Herr.
    rewrite Hcf in Herr. injection Herr as ->. auto.
Qed.

(** before the solver is called, the method can only raise and stop *)
Ltac before_solver Hrun Hcalls :=
  repeat (rewrite bind_lift in Hrun;
          match type of Hrun with
          | context [match ?o with Returns _ => _ | Raises _ => _ end] =>
              destruct o
          end;
          [ | injection Hrun as <- <-; exfalso; exact (list_neq_snoc _ _ Hcalls) ]).

(** C8. When the call of [curve_fit] made by a fit raises (scipy reports a
    minimisation that did not converge by raising a RuntimeError), the fit
    raises that same error to its caller; nothing has been drawn or
    printed, and no fitted parameter is returned. *)
Theorem solver_failure_is_raised
    (bin_centers data bin_edges : ndarray) (fit_type : pyval)
    (range : npfloat * npfloat) (w w' : World) (o : outcome unit)
    (call : SolverCall) (err : exn) :
  fit_with_function curve_fit bin_centers data bin_edges fit_type range w = (w', o) ->
  solver_calls w' = (solver_calls w ++ [call])%list ->
  curve_fit (call_f call) (call_xdata call) (call_ydata call) (call_p0 call)
  = Raises err ->
  o = Raises err /\ ax_lines w' = ax_lines w /\ stdout w' = stdout w.
Proof.
  intros Hrun Hcalls Herr. unfold fit_with_function in Hrun.
  destruct (py_eq_str fit_type "crystal_ball");
    [| destruct (py_eq_str fit_type "crystal_ball_mxb");
       [| destruct (py_eq_str fit_type "gaussian")]].
  - before_solver Hrun Hcalls.
    eapply raise_at_solver; [| exact Hrun | exact Hcalls | exact Herr].
    intros fit. keeps_tac.
  - before_solver Hrun Hcalls.
    eapply raise_at_solver; [| exact Hrun | exact Hcalls | exact Herr].
    intros fit. keeps_tac.
  - before_solver Hrun Hcalls.
    eapply raise_at_solver; [| exact Hrun | exact Hcalls | exact Herr].
    intros fit. keeps_tac.
  - injection Hrun as <- <-. exfalso. exact (list_neq_snoc _ _ Hcalls).
Qed.

End SolverFailure.

(** ** C5: the initial guess *)

Local Open Scope R_scope.

Lemma fold_add_Fin (l : list R) (a : R) :
  fold_left add (map Fin l) (Fin a) = Fin (a + Rsum l).
Proof.
  revert a. induction l as [| r l IH]; intros a; simpl.
  - f_equal. ring.
  - rewrite IH. f_equal. ring.
Qed.

Lemma sum_Fin (l : list R) : sum (map Fin l) = Fin (Rsum l).
Proof. unfold sum. rewrite fold_add_Fin. f_equal. ring. Qed.

Lemma combine_mul_Fin (a w : list R) :
  map (fun aw => mul (fst aw) (snd aw)) (combine (map Fin a) (map Fin w))
  = map Fin (map (fun p => fst p * snd p) (combine a w)).
Proof.
  revert w. induction a as [| r a IH]; intros [| s w]; simpl; try reflexivity.
  now rewrite IH.
Qed.

Lemma average_real (a w : list R) :
  List.length a = List.length w -> Rsum w <> 0 ->
  average (map Fin a) (map Fin w) = Returns (Fin (weighted_average a w)).
Proof.
  intros Hlen Hw. unfold average.
  rewrite !length_map, Hlen, Nat.eqb_refl. cbn [negb].
  rewrite sum_Fin. unfold eqb. rewrite Reqb_false by assumption.
  rewrite combine_mul_Fin, sum_Fin, div_Fin by assumption.
  reflexivity.
Qed.

Lemma squares_real (a : list R) (mu : R) :
  map (fun c => pow (sub c (Fin mu)) (Fin 2)) (map Fin a)
  = map Fin (map (fun ai => (ai - mu) ^ 2) a).
Proof.
  rewrite !map_map. apply map_ext. intros ai.
  rewrite sub_Fin, pow_square. now rewrite <- Rsqr_pow2.
Qed.

Lemma Rsum_nonneg (l : list R) : Forall (fun r => 0 <= r) l -> 0 <= Rsum l.
Proof.
  induction 1 as [| r l Hr _ IH]; simpl; lra.
Qed.

Lemma weighted_variance_nonneg (a w : list R) (mu : R) :
  Forall (fun r => 0 <= r) w -> 0 < Rsum w -> 0 <= weighted_variance a w mu.
Proof.
  intros Hw Hpos. unfold weighted_variance, weighted_average.
  apply Rmult_le_pos; [| left; now apply Rinv_0_lt_compat].
  apply Rsum_nonneg. clear Hpos. revert w Hw.
  induction a as [| ai a IH]; intros [| wi w] Hw; cbn [combine map];
    try constructor.
  - inversion Hw; subst. cbn [fst snd].
    apply Rmult_le_pos; [| assumption].
    rewrite <- Rsqr_pow2. apply Rle_0_sqr.
  - inversion Hw; subst. now apply IH.
Qed.

Lemma diff_Fin (e : list R) : diff (map Fin e) = map Fin (Rdiff e).
Proof.
  induction e as [| u [| v e] IH]; try reflexivity.
  change (diff (map Fin (u :: v :: e)))
    with (sub (Fin v) (Fin u) :: diff (map Fin (v :: e))).
  now rewrite IH.
Qed.

Lemma length_Rdiff (e : list R) : List.length (Rdiff e) = Nat.pred (List.length e).
Proof.
  induction e as [| u [| v e] IH]; try reflexivity.
  change (Rdiff (u :: v :: e)) with ((v - u) :: Rdiff (v :: e)).
  cbn [List.length]. rewrite IH. reflexivity.
Qed.

Lemma length_diff (e : ndarray) : List.length (diff e) = Nat.pred (List.length e).
Proof.
  induction e as [| u [| v e] IH]; try reflexivity.
  change (diff (u :: v :: e)) with (sub v u :: diff (v :: e)).
  cbn [List.length]. rewrite IH. reflexivity.
Qed.

Lemma histogram_integral_Rdiff (d e : list R) :
  List.length e = S (List.length d) ->
  Rsum (map (fun p => fst p * snd p) (combine d (Rdiff e))) = histogram_integral d e.
Proof.
  unfold histogram_integral. revert e.
  induction d as [| di d IH]; intros e Hlen.
  - reflexivity.
  - destruct e as [| e0 [| e1 e]]; try discriminate Hlen.
    change (Rdiff (e0 :: e1 :: e)) with ((e1 - e0) :: Rdiff (e1 :: e)).
    cbn [combine map Rsum fold_right fst snd List.length seq].
    rewrite <- seq_shift, map_map.
    cbn [nth].
    fold (Rsum (map (fun p : R * R => fst p * snd p) (combine d (Rdiff (e1 :: e))))).
    assert (Hlen' : List.length (e1 :: e) = S (List.length d))
      by (cbn [List.length] in *; lia).
    rewrite (IH (e1 :: e) Hlen').
    reflexivity.
Qed.

Lemma array_mul_real (d e : list R) :
  List.length e = S (List.length d) ->
  array_mul (map Fin d) (diff (map Fin e))
  = Returns (map Fin (map (fun p => fst p * snd p) (combine d (Rdiff e)))).
Proof.
  intros Hlen. unfold array_mul.
  rewrite diff_Fin, !length_map, length_Rdiff, Hlen. cbn [Nat.pred].
  rewrite Nat.eqb_refl, combine_mul_Fin. reflexivity.
Qed.

Lemma sqrt_Fin (v : R) : 0 <= v -> Np.sqrt (Fin v) = Fin (R_sqrt.sqrt v).
Proof. intros H. unfold Np.sqrt. now rewrite Rltb_false. Qed.

Section InitialGuess.

Variable curve_fit :
  callable -> ndarray -> ndarray -> ndarray -> outcome (ndarray * list ndarray).

Lemma calls_after_solver (f : callable) (xdata ydata p0 : ndarray)
    (k : ndarray * list ndarray -> M unit) (w : World) :
  (forall fit, keeps solver_calls (k fit)) ->
  solver_calls (fst (bind (call_curve_fit curve_fit f xdata ydata p0) k w))
  = (solver_calls w ++ [mkCall f xdata ydata p0])%list.
Proof.
  intros Hk. unfold bind, call_curve_fit.
  destruct (curve_fit f xdata ydata p0) as [fit | e]; [| reflexivity].
  now rewrite Hk.
Qed.

(** a well-formed histogram with non-negative counts, not all zero *)
Variables centers counts edges : list R.
Hypothesis centers_counts : List.length centers = List.length counts.
Hypothesis edges_counts : List.length edges = S (List.length counts).
Hypothesis counts_nonneg : Forall (fun r => 0 <= r) counts.
Hypothesis counts_pos : 0 < Rsum counts.

Variable range : npfloat * npfloat.
Variable w : World.

Ltac seed :=
  unfold fit_with_function; cbn [py_eq_str String.eqb Ascii.eqb Bool.eqb];
  rewrite bind_lift, average_real by (assumption || lra);
  rewrite bind_lift, squares_real, average_real
    by (rewrite ?length_map; assumption || lra);
  rewrite bind_lift, array_mul_real by assumption;
  rewrite sqrt_Fin by (apply weighted_variance_nonneg; assumption);
  rewrite sum_Fin, histogram_integral_Rdiff by assumption;
  rewrite calls_after_solver by (intros ?; keeps_tac).

Lemma solver_call_gaussian :
  solver_calls
    (fst (fit_with_function curve_fit (map Fin centers) (map Fin counts)
            (map Fin edges) (PyStr "gaussian") range w))
  = (solver_calls w
       ++ [mkCall call_gaussian (map Fin centers) (map Fin counts)
                  [Fin (weighted_average centers counts);
                   Fin (R_sqrt.sqrt
                          (weighted_variance centers counts
                             (weighted_average centers counts)));
                   Fin (histogram_integral counts edges)]])%list.
Proof. seed. reflexivity. Qed.

Lemma solver_call_crystal_ball :
  solver_calls
    (fst (fit_with_function curve_fit (map Fin centers) (map Fin counts)
            (map Fin edges) (PyStr "crystal_ball") range w))
  = (solver_calls w
       ++ [mkCall call_crystal_ball (map Fin centers) (map Fin counts)
                  [Fin 1.5; Fin 5;
                   Fin (weighted_average centers counts);
                   Fin (R_sqrt.sqrt
                          (weighted_variance centers counts
                             (weighted_average centers counts)));
                   Fin (histogram_integral counts edges)]])%list.
Proof. seed. reflexivity. Qed.

Lemma solver_call_crystal_ball_mxb :
  solver_calls
    (fst (fit_with_function curve_fit (map Fin centers) (map Fin counts)
            (map Fin edges) (PyStr "crystal_ball_mxb") range w))
  = (solver_calls w
       ++ [mkCall call_crystal_ball_mxb (map Fin centers) (map Fin counts)
                  [Fin 1.5; Fin 5;
                   Fin (weighted_average centers counts);
                   Fin (R_sqrt.sqrt
                          (weighted_variance centers counts
                             (weighted_average centers counts)));
                   Fin (histogram_integral counts edges);
                   Fin 0; Fin (mean_of counts)]])%list.
Proof.
  seed. rewrite sum_Fin, length_map, div_Fin; [reflexivity |].
  apply not_0_INR. destruct counts; [| discriminate].
  simpl in counts_pos. lra.
Qed.

End InitialGuess.

(** C5. On a well-formed histogram with non-negative counts of positive
    sum, the initial guess handed to [curve_fit] is [mean, sigma,
    normalization] for the Gaussian, with 1.5 and 5 in front of it for the
    Crystal Ball, and with 0 and the mean of the counts behind it for the
    Crystal Ball with a linear background; mean is the average of the
    centers weighted by the counts, sigma the square root of their
    weighted variance about that mean, and normalization the sum of
    counts[i] * (edges[i+1] - edges[i]). *)
Theorem initial_guess_handed_to_solver
    (curve_fit : callable -> ndarray -> ndarray -> ndarray -> outcome (ndarray * list ndarray))
    (centers counts edges : list R) (range : npfloat * npfloat) (w : World) :
  List.length centers = List.length counts ->
  List.length edges = S (List.length counts) ->
  Forall (fun r => 0 <= r) counts ->
  0 < Rsum counts ->
  let mean := weighted_average centers counts in
  let sigma := R_sqrt.sqrt (weighted_variance centers counts mean) in
  let normalization := histogram_integral counts edges in
  let calls fit_type :=
    solver_calls (fst (fit_with_function curve_fit (map Fin centers) (map Fin counts)
                                         (map Fin edges) (PyStr fit_type) range w)) in
  calls "gaussian"%string
  = (solver_calls w
       ++ [mkCall call_gaussian (map Fin centers) (map Fin counts)
                  [Fin mean; Fin sigma; Fin normalization]])%list
  /\ calls "crystal_ball"%string
     = (solver_calls w
          ++ [mkCall call_crystal_ball (map Fin centers) (map Fin counts)
                     [Fin 1.5; Fin 5; Fin mean; Fin sigma; Fin normalization]])%list
  /\ calls "crystal_ball_mxb"%string
     = (solver_calls w
          ++ [mkCall call_crystal_ball_mxb (map Fin centers) (map Fin counts)
                     [Fin 1.5; Fin 5; Fin mean; Fin sigma; Fin normalization;
                      Fin 0; Fin (mean_of counts)]])%list.
Proof.
  intros H1 H2 H3 H4. cbv zeta. repeat split.
  - now apply solver_call_gaussian.
  - now apply solver_call_crystal_ball.
  - now apply solver_call_crystal_ball_mxb.
Qed.

Lemma scenario_counts_nonneg : Forall (fun r => 0 <= r) scenario_counts.
Proof. repeat constructor; lra. Defined.

Lemma scenario_counts_pos : 0 < Rsum scenario_counts.
Proof. unfold scenario_counts, Rsum. simpl. lra. Defined.

Lemma initial_guess_handed_to_solver_witness :
  (List.length scenario_centers = List.length scenario_counts
   /\ List.length scenario_edges = S (List.length scenario_counts)
   /\ Forall (fun r => 0 <= r) scenario_counts
   /\ 0 < Rsum scenario_counts)
  /\ solver_calls
       (fst (fit_with_function failing_solver (map Fin scenario_centers)
               (map Fin scenario_counts) (map Fin scenario_edges)
               (PyStr "crystal_ball") (Fin (-3), Fin 3) empty_world))
     = [mkCall call_crystal_ball (map Fin scenario_centers) (map Fin scenario_counts)
               [Fin 1.5; Fin 5;
                Fin (weighted_average scenario_centers scenario_counts);
                Fin (R_sqrt.sqrt
                       (weighted_variance scenario_centers scenario_counts
                          (weighted_average scenario_centers scenario_counts)));
                Fin (histogram_integral scenario_counts scenario_edges)]].
Proof.
  split.
  - repeat split; [apply scenario_counts_nonneg | apply scenario_counts_pos].
  - exact (proj1 (proj2 (initial_guess_handed_to_solver failing_solver
                           scenario_centers scenario_counts scenario_edges
                           (Fin (-3), Fin 3) empty_world
                           eq_refl eq_refl
                           scenario_counts_nonneg scenario_counts_pos))).
Defined.

(** the scenario, in numbers *)
Example scenario_initial_guess :
  weighted_average scenario_centers scenario_counts = 0
  /\ weighted_variance scenario_centers scenario_counts 0 = 18 / 22
  /\ histogram_integral scenario_counts scenario_edges = 22.
Proof.
  unfold weighted_variance, weighted_average, histogram_integral, Rsum,
    scenario_centers, scenario_counts, scenario_edges.
  simpl. repeat split; lra.
Qed.

Lemma solver_failure_is_raised_witness :
  let r := fit_with_function failing_solver (map Fin scenario_centers)
             (map Fin scenario_counts) (map Fin scenario_edges)
             (PyStr "gaussian") (Fin (-3), Fin 3) empty_world in
  snd r = Raises RuntimeError /\ ax_lines (fst r) = [] /\ stdout (fst r) = [].
Proof.
  cbv zeta.
  exact (solver_failure_is_raised failing_solver
           (map Fin scenario_centers) (map Fin scenario_counts) (map Fin scenario_edges)
           (PyStr "gaussian") (Fin (-3), Fin 3) empty_world _ _ _ RuntimeError
           (surjective_pairing _)
           (solver_call_gaussian failing_solver scenario_centers scenario_counts
              scenario_edges eq_refl eq_refl scenario_counts_nonneg scenario_counts_pos
              (Fin (-3), Fin 3) empty_world)
           eq_refl).
Defined.

(** ** C4: malformed shapes *)

Lemma average_shape_error (a w : ndarray) :
  List.length a <> List.length w -> average a w = Raises TypeError.
Proof.
  intros H. unfold average.
  apply Nat.eqb_neq in H. now rewrite H.
Qed.

Lemma array_mul_shape_error (a b : ndarray) :
  List.length a <> List.length b ->
  List.length a <> 1%nat -> List.length b <> 1%nat ->
  array_mul a b = Raises ValueError.
Proof.
  intros Hab Ha Hb. unfold array_mul.
  apply Nat.eqb_neq in Hab. rewrite Hab.
  destruct a as [| a0 [| a1 a]]; destruct b as [| b0 [| b1 b]];
    simpl in *; try reflexivity; congruence.
Qed.

(** one array of a single element is stretched along the other *)
Lemma array_mul_stretch (a : ndarray) (b0 : npfloat) :
  List.length a <> 1%nat ->
  array_mul a [b0] = Returns (map (fun ai => mul ai b0) a).
Proof.
  intros Ha. unfold array_mul.
  change (List.length [b0]) with 1%nat.
  apply Nat.eqb_neq in Ha. rewrite Ha.
  destruct a as [| a0 [| a1 a]]; try reflexivity; discriminate Ha.
Qed.

Section MalformedShapes.

Variable curve_fit :
  callable -> ndarray -> ndarray -> ndarray -> outcome (ndarray * list ndarray).

(** C4, as the code has it. The fit has no validation of its own; the
    shapes numpy refuses are refused before the solver is called: centers
    and counts of different lengths, and a count of bins, len(edges) - 1,
    that differs from the number of counts when neither of the two is 1. *)
Theorem malformed_shapes_rejected
    (bin_centers data bin_edges : ndarray) (fit_type : pyval)
    (range : npfloat * npfloat) (w : World) :
  In fit_type [PyStr "crystal_ball"; PyStr "crystal_ball_mxb"; PyStr "gaussian"] ->
  List.length bin_centers <> List.length data
  \/ (Nat.pred (List.length bin_edges) <> List.length data
      /\ List.length data <> 1%nat
      /\ Nat.pred (List.length bin_edges) <> 1%nat) ->
  rejected_before_solving curve_fit bin_centers data bin_edges fit_type range w.
Proof.
  intros Hkind Hshape. unfold rejected_before_solving. cbv zeta.
  assert (Hstop :
            average bin_centers data = Raises TypeError
            \/ array_mul data (diff bin_edges) = Raises ValueError).
  { destruct Hshape as [Hcd | [Hed [Hd He]]].
    - left. now apply average_shape_error.
    - right. apply array_mul_shape_error; rewrite ?length_diff; auto. }
  unfold fit_with_function.
  destruct Hkind as [<- | [<- | [<- | []]]];
    cbn [py_eq_str String.eqb Ascii.eqb Bool.eqb];
    (destruct Hstop as [Havg | Hmul];
     [ rewrite bind_lift, Havg; split; [eexists |]; reflexivity
     | rewrite Hmul, bind_lift;
       destruct (average bin_centers data); [| split; [eexists |]; reflexivity];
       rewrite bind_lift;
       destruct (average _ data); [| split; [eexists |]; reflexivity];
       rewrite bind_lift; split; [eexists |]; reflexivity ]).
Qed.

End MalformedShapes.

Lemma malformed_shapes_rejected_witness :
  (In (PyStr "gaussian") [PyStr "crystal_ball"; PyStr "crystal_ball_mxb"; PyStr "gaussian"]
   /\ Nat.pred (List.length [Fin 0; Fin 1; Fin 2; Fin 3]) <> List.length [Fin 1; Fin 1]
   /\ List.length [Fin 1; Fin 1] <> 1%nat
   /\ Nat.pred (List.length [Fin 0; Fin 1; Fin 2; Fin 3]) <> 1%nat)
  /\ rejected_before_solving failing_solver [Fin 0; Fin 1] [Fin 1; Fin 1]
       [Fin 0; Fin 1; Fin 2; Fin 3] (PyStr "gaussian") (Fin (-1), Fin 1) empty_world.
Proof.
  assert (Hk : In (PyStr "gaussian")
                  [PyStr "crystal_ball"; PyStr "crystal_ball_mxb"; PyStr "gaussian"])
    by (right; right; left; reflexivity).
  assert (H1 : Nat.pred (List.length [Fin 0; Fin 1; Fin 2; Fin 3])
               <> List.length [Fin 1; Fin 1]) by discriminate.
  assert (H2 : List.length [Fin 1; Fin 1] <> 1%nat) by discriminate.
  assert (H3 : Nat.pred (List.length [Fin 0; Fin 1; Fin 2; Fin 3]) <> 1%nat)
    by discriminate.
  split; [auto |].
  exact (malformed_shapes_rejected failing_solver [Fin 0; Fin 1] [Fin 1; Fin 1]
           [Fin 0; Fin 1; Fin 2; Fin 3] (PyStr "gaussian") (Fin (-1), Fin 1)
           empty_world Hk (or_intror (conj H1 (conj H2 H3)))).
Defined.

Lemma gaussian_fit_reaches_solver
    (curve_fit : callable -> ndarray -> ndarray -> ndarray -> outcome (ndarray * list ndarray))
    (bin_centers data bin_edges : ndarray) (range : npfloat * npfloat) (w : World)
    (g_mean var : npfloat) (g_norm : ndarray) :
  average bin_centers data = Returns g_mean ->
  average (map (fun c => pow (sub c g_mean) (Fin 2)) bin_centers) data = Returns var ->
  array_mul data (diff bin_edges) = Returns g_norm ->
  solver_calls (fst (fit_with_function curve_fit bin_centers data bin_edges
                                       (PyStr "gaussian") range w))
  = (solver_calls w
       ++ [mkCall call_gaussian bin_centers data [g_mean; Np.sqrt var; sum g_norm]])%list.
Proof.
  intros Hmean Hvar Hnorm. unfold fit_with_function.
  cbn [py_eq_str String.eqb Ascii.eqb Bool.eqb].
  rewrite bind_lift, Hmean, bind_lift, Hvar, bind_lift, Hnorm.
  rewrite calls_after_solver by (intros ?; keeps_tac).
  reflexivity.
Qed.

(** C4 as stated fails. Two edges for five bins are stretched by numpy's
    broadcasting (five centers, five counts, [bin_edges = [0, 1]]), and one
    data point for the three parameters of the Gaussian is not checked:
    in both fits [curve_fit] is called. *)
Lemma validation_before_solver_counterexample :
  (List.length (map Fin [0; 1]) <> S (List.length (map Fin scenario_centers))
   /\ ~ rejected_before_solving failing_solver (map Fin scenario_centers)
          (map Fin scenario_counts) (map Fin [0; 1]) (PyStr "gaussian")
          (Fin (-3), Fin 3) empty_world)
  /\ ((List.length (map Fin [1%R]) < 3)%nat
      /\ ~ rejected_before_solving failing_solver (map Fin [0]) (map Fin [1])
             (map Fin [-0.5; 0.5]) (PyStr "gaussian") (Fin (-1), Fin 1) empty_world).
Proof.
  split; split.
  - discriminate.
  - intros [_ Hcalls].
    erewrite gaussian_fit_reaches_solver in Hcalls.
    + exact (list_neq_snoc _ _ (eq_sym Hcalls)).
    + apply average_real; [reflexivity |].
      apply Rgt_not_eq, scenario_counts_pos.
    + rewrite squares_real. apply average_real; [reflexivity |].
      apply Rgt_not_eq, scenario_counts_pos.
    + apply array_mul_stretch. discriminate.
  - simpl. lia.
  - intros [_ Hcalls].
    rewrite (solver_call_gaussian failing_solver [0] [1] [-0.5; 0.5]) in Hcalls.
    + exact (list_neq_snoc _ _ (eq_sym Hcalls)).
    + reflexivity.
    + reflexivity.
    + repeat constructor. lra.
    + unfold Rsum. simpl. lra.
Qed.

(** ** C3: the label *)

Local Open Scope string_scope.

Lemma string_app_assoc (a b c : string) : (a ++ b) ++ c = a ++ (b ++ c).
Proof. induction a as [| x a IH]; simpl; [reflexivity | now rewrite IH]. Qed.

Lemma string_app_empty (a : string) : a ++ "" = a.
Proof. induction a as [| x a IH]; simpl; [reflexivity | now rewrite IH]. Qed.

Lemma is_prefix_app (p s : string) : is_prefix p (p ++ s) = true.
Proof.
  induction p as [| a p IH]; simpl; [reflexivity |].
  now rewrite Ascii.eqb_refl, IH.
Qed.

Lemma occurs_unfold (p s : string) :
  occurs p s = is_prefix p s
               || match s with
                  | EmptyString => false
                  | String _ s' => occurs p s'
                  end.
Proof. destruct s; reflexivity. Qed.

Lemma occurs_complete (label piece : string) :
  embeds label piece -> occurs piece label = true.
Proof.
  intros [before [after ->]].
  induction before as [| a before IH].
  - change ("" ++ piece ++ after) with (piece ++ after).
    rewrite occurs_unfold, is_prefix_app. reflexivity.
  - change (String a before ++ piece ++ after)
      with (String a (before ++ piece ++ after)).
    rewrite occurs_unfold, IH. apply orb_true_r.
Qed.

Lemma embeds_here (s : string) : embeds s s.
Proof. exists "", "". simpl. now rewrite string_app_empty. Qed.

Lemma embeds_left (a b s : string) : embeds a s -> embeds (a ++ b) s.
Proof.
  intros [u [v ->]]. exists u, (v ++ b).
  now rewrite !string_app_assoc.
Qed.

Lemma embeds_right (a b s : string) : embeds b s -> embeds (a ++ b) s.
Proof.
  intros [u [v ->]]. exists (a ++ u), v.
  now rewrite !string_app_assoc.
Qed.

Create HintDb label.
#[local] Hint Resolve embeds_here embeds_left embeds_right : label.

Lemma value_pm_error_returns (popt : ndarray) (pcov : list ndarray) (i : nat) (s : string) :
  value_pm_error popt pcov i = Returns s ->
  exists p v, getitem popt i = Returns p /\ getitem2 pcov i i = Returns v
              /\ s = format_2f p ++ pm ++ format_2f (Np.sqrt v).
Proof.
  unfold value_pm_error. intros H.
  destruct (getitem popt i) as [p | e]; [| discriminate].
  destruct (getitem2 pcov i i) as [v | e]; [| discriminate].
  injection H as <-. eauto.
Qed.

(** *** formatting numbers with a whole number of hundredths *)

Lemma round_half_even_IZR (k : Z) : round_half_even (IZR k) = k.
Proof.
  unfold round_half_even. rewrite Int_part_IZR.
  rewrite Rltb_true by lra. reflexivity.
Qed.

Lemma format_2f_exact (r : R) (k : Z) :
  (0 <= r)%R -> (r * 100 = IZR k)%R ->
  format_2f (Fin r)
  = string_of_Z (k / 100) ++ "." ++ digit ((k mod 100) / 10) ++ digit (k mod 10).
Proof.
  intros Hr Hk. unfold format_2f.
  rewrite Rabs_right by lra. rewrite Hk, round_half_even_IZR.
  rewrite Rltb_false by lra. reflexivity.
Qed.

Example format_2f_22 : format_2f (Fin 22) = "22.00".
Proof. rewrite (format_2f_exact 22 2200) by lra. reflexivity. Qed.

Example format_2f_0 : format_2f (Fin 0) = "0.00".
Proof. rewrite (format_2f_exact 0 0) by lra. reflexivity. Qed.

Example format_2f_1 : format_2f (Fin 1) = "1.00".
Proof. rewrite (format_2f_exact 1 100) by lra. reflexivity. Qed.

Example format_2f_quarter : format_2f (Fin 1.25) = "1.25".
Proof. rewrite (format_2f_exact 1.25 125) by lra. reflexivity. Qed.

Section Label.

Variable curve_fit :
  callable -> ndarray -> ndarray -> ndarray -> outcome (ndarray * list ndarray).

(** one step of a run that returned: the step returned too *)
Ltac returned Hrun :=
  rewrite bind_lift in Hrun;
  lazymatch type of Hrun with
  | context [match ?o with Returns _ => _ | Raises _ => _ end] =>
      destruct o eqn:?; [| discriminate Hrun]
  end.

Ltac solver_returned Hrun :=
  unfold bind at 1, call_curve_fit in Hrun;
  lazymatch type of Hrun with
  | context [match ?o with Returns _ => _ | Raises _ => _ end] =>
      let popt := fresh "popt" in
      let pcov := fresh "pcov" in
      let Hcf := fresh "Hcf" in
      destruct o as [[popt pcov] |] eqn:Hcf; [| discriminate Hrun]
  end;
  cbn [fst snd] in Hrun.

Ltac shown :=
  repeat match goal with
         | H : value_pm_error _ _ _ = Returns _ |- _ =>
             apply value_pm_error_returns in H;
             destruct H as [? [? [? [? ->]]]]
         end;
  repeat (constructor;
          [ do 2 eexists; split; [eassumption | split; [eassumption |]];
            cbn [line_label]; auto 12 with label
          | ]);
  try apply Forall_nil.

(** C3, as the code has it. The label of a fit that returned shows, each
    with its standard error (the square root of its diagonal entry of the
    covariance matrix) and both to two decimal places, the mean and sigma,
    then for the Crystal Ball alpha and n, then for the linear background
    m and b: every parameter but the normalization N. *)
Theorem label_embeds_shown_parameters
    (bin_centers data bin_edges : ndarray) (fit_type : pyval)
    (range : npfloat * npfloat) (w w' : World) :
  fit_with_function curve_fit bin_centers data bin_edges fit_type range w
  = (w', Returns tt) ->
  In fit_type [PyStr "crystal_ball"; PyStr "crystal_ball_mxb"; PyStr "gaussian"] ->
  exists (call : SolverCall) (popt : ndarray) (pcov : list ndarray) (line : Line),
    solver_calls w' = (solver_calls w ++ [call])%list
    /\ curve_fit (call_f call) (call_xdata call) (call_ydata call) (call_p0 call)
       = Returns (popt, pcov)
    /\ ax_lines w' = (ax_lines w ++ [line])%list
    /\ Forall (fun i =>
                 exists p v,
                   getitem popt i = Returns p
                   /\ getitem2 pcov i i = Returns v
                   /\ embeds (line_label line)
                             (format_2f p ++ pm ++ format_2f (Np.sqrt v)))
              (shown_parameters fit_type).
Proof.
  intros Hrun Hkind. unfold fit_with_function in Hrun.
  set (x := linspace (fst range) (snd range) 1000) in Hrun. clearbody x.
  destruct Hkind as [<- | [<- | [<- | []]]];
    cbn [py_eq_str String.eqb Ascii.eqb Bool.eqb] in Hrun;
    do 3 returned Hrun; solver_returned Hrun.
  - do 5 returned Hrun.
    unfold ax_plot in Hrun.
    apply (f_equal fst) in Hrun. cbn [fst] in Hrun. subst w'.
    eexists (mkCall _ _ _ _), popt, pcov, (mkLine _ _ _ _).
    split; [reflexivity |]. split; [exact Hcf |]. split; [reflexivity |].
    unfold shown_parameters. cbn [py_eq_str String.eqb Ascii.eqb Bool.eqb].
    shown.
  - unfold bind at 1, print in Hrun. cbn [ax_lines stdout solver_calls] in Hrun.
    do 7 returned Hrun.
    unfold ax_plot in Hrun.
    apply (f_equal fst) in Hrun. cbn [fst] in Hrun. subst w'.
    eexists (mkCall _ _ _ _), popt, pcov, (mkLine _ _ _ _).
    split; [reflexivity |]. split; [exact Hcf |]. split; [reflexivity |].
    unfold shown_parameters. cbn [py_eq_str String.eqb Ascii.eqb Bool.eqb].
    shown.
  - do 3 returned Hrun.
    unfold ax_plot in Hrun.
    apply (f_equal fst) in Hrun. cbn [fst] in Hrun. subst w'.
    eexists (mkCall _ _ _ _), popt, pcov, (mkLine _ _ _ _).
    split; [reflexivity |]. split; [exact Hcf |]. split; [reflexivity |].
    unfold shown_parameters. cbn [py_eq_str String.eqb Ascii.eqb Bool.eqb].
    shown.
Qed.

End Label.

Lemma sqrt_Fin_1 : Np.sqrt (Fin 1) = Fin 1.
Proof. rewrite sqrt_Fin by lra. now rewrite sqrt_1. Qed.

Lemma scenario_run :
  exists call,
    fit_with_function scenario_solver (map Fin scenario_centers)
      (map Fin scenario_counts) (map Fin scenario_edges)
      (PyStr "gaussian") (Fin (-3), Fin 3) empty_world
    = (mkWorld [scenario_line] [] [call], Returns tt).
Proof.
  eexists. unfold fit_with_function.
  cbn [py_eq_str String.eqb Ascii.eqb Bool.eqb].
  rewrite bind_lift, average_real
    by (reflexivity || apply Rgt_not_eq, scenario_counts_pos).
  rewrite bind_lift, squares_real, average_real
    by (reflexivity || apply Rgt_not_eq, scenario_counts_pos).
  rewrite bind_lift, array_mul_real by reflexivity.
  unfold bind at 1, call_curve_fit, scenario_solver.
  cbn [fst snd].
  unfold value_pm_error, scenario_popt, scenario_pcov.
  cbn [getitem getitem2 nth_error].
  rewrite sqrt_Fin_1, format_2f_0, format_2f_1.
  cbv [bind lift call_gaussian ax_plot empty_world ax_lines stdout solver_calls app].
  reflexivity.
Defined.

(** C3 as stated fails. A Gaussian fit of the scenario that returns mean 0,
    sigma 1 and N = 22 draws a line whose label is
    "Gaussian Fit / $\mu$=0.00$\pm$1.00 / $\sigma$=1.00$\pm$1.00": the
    normalization 22.00 is not in it. *)
Lemma label_omits_normalization_counterexample :
  exists call,
    fit_with_function scenario_solver (map Fin scenario_centers)
      (map Fin scenario_counts) (map Fin scenario_edges)
      (PyStr "gaussian") (Fin (-3), Fin 3) empty_world
    = (mkWorld [scenario_line] [] [call], Returns tt)
    /\ scenario_solver (call_f call) (call_xdata call) (call_ydata call) (call_p0 call)
       = Returns (scenario_popt, scenario_pcov)
    /\ ~ label_embeds_all scenario_popt scenario_pcov (line_label scenario_line).
Proof.
  destruct scenario_run as [call Hrun].
  exists call. split; [exact Hrun |]. split; [reflexivity |].
  intros Hall.
  destruct (Hall 2%nat) as [p [v [Hp [Hv Hemb]]]]; [simpl; lia |].
  injection Hp as <-. injection Hv as <-.
  change (line_label scenario_line) with scenario_label in Hemb.
  rewrite sqrt_Fin_1, format_2f_22, format_2f_1 in Hemb.
  apply occurs_complete in Hemb.
  vm_compute in Hemb. discriminate Hemb.
Qed.

Lemma label_embeds_shown_parameters_witness :
  exists w' : World,
    fit_with_function scenario_solver (map Fin scenario_centers)
      (map Fin scenario_counts) (map Fin scenario_edges)
      (PyStr "gaussian") (Fin (-3), Fin 3) empty_world
    = (w', Returns tt)
    /\ In (PyStr "gaussian")
          [PyStr "crystal_ball"; PyStr "crystal_ball_mxb"; PyStr "gaussian"]
    /\ exists (call : SolverCall) (popt : ndarray) (pcov : list ndarray) (line : Line),
        solver_calls w' = (solver_calls empty_world ++ [call])%list
        /\ scenario_solver (call_f call) (call_xdata call) (call_ydata call) (call_p0 call)
           = Returns (popt, pcov)
        /\ ax_lines w' = (ax_lines empty_world ++ [line])%list
        /\ Forall (fun i =>
                     exists p v,
                       getitem popt i = Returns p
                       /\ getitem2 pcov i i = Returns v
                       /\ embeds (line_label line)
                                 (format_2f p ++ pm ++ format_2f (Np.sqrt v)))
                  (shown_parameters (PyStr "gaussian")).
Proof.
  destruct scenario_run as [call Hrun].
  assert (Hkind : In (PyStr "gaussian")
                     [PyStr "crystal_ball"; PyStr "crystal_ball_mxb"; PyStr "gaussian"])
    by (right; right; left; reflexivity).
  eexists. split; [exact Hrun |]. split; [exact Hkind |].
  exact (label_embeds_shown_parameters scenario_solver _ _ _ _ _ _ _ Hrun Hkind).
Defined.

(** * Further properties of the model functions *)

Local Open Scope R_scope.

Lemma abs_neg (a : npfloat) : Np.abs (neg a) = Np.abs a.
Proof. destruct a; simpl; try reflexivity. now rewrite Rabs_Ropp. Qed.

Lemma gaussian_length (x : ndarray) (mean sigma N : npfloat) :
  List.length (gaussian x mean sigma N) = List.length x.
Proof. unfold gaussian. now rewrite !length_map. Qed.

Lemma crystal_ball_mxb_length (x : ndarray) (alpha n mean sigma N m b : npfloat) :
  List.length (crystal_ball_mxb x alpha n mean sigma N m b) = List.length x.
Proof.
  unfold crystal_ball_mxb.
  rewrite length_map, length_combine, crystal_ball_length. apply Nat.min_id.
Qed.

(** X1. The sign of alpha does not matter: [crystal_ball] and
    [crystal_ball_mxb] use alpha only through [np.abs(alpha)], for every
    array and every parameter vector. *)
Theorem crystal_ball_alpha_sign (x : ndarray) (alpha n mean sigma N m b : npfloat) :
  crystal_ball x (neg alpha) n mean sigma N = crystal_ball x alpha n mean sigma N
  /\ crystal_ball_mxb x (neg alpha) n mean sigma N m b
     = crystal_ball_mxb x alpha n mean sigma N m b.
Proof.
  assert (H : crystal_ball x (neg alpha) n mean sigma N
              = crystal_ball x alpha n mean sigma N)
    by (unfold crystal_ball; now rewrite abs_neg).
  split; [exact H |]. unfold crystal_ball_mxb. now rewrite H.
Qed.

(** X2. The three model functions return an array of the length of x,
    whatever the parameters (invalid ones included). *)
Theorem model_functions_keep_length
    (x : ndarray) (alpha n mean sigma N m b : npfloat) :
  List.length (crystal_ball x alpha n mean sigma N) = List.length x
  /\ List.length (crystal_ball_mxb x alpha n mean sigma N m b) = List.length x
  /\ List.length (gaussian x mean sigma N) = List.length x.
Proof.
  repeat split;
    [apply crystal_ball_length | apply crystal_ball_mxb_length | apply gaussian_length].
Qed.



Lemma crystal_ball_at_nonfinite (alpha n mean sigma N : R) (v : npfloat) :
  Rabs alpha <> 0 -> 0 < n -> 0 < sigma -> ~ is_finite v ->
  crystal_ball_at (Fin alpha) (Fin n) (Fin mean) (Fin sigma) (Fin N) v = Fin 0.
Proof.
  intros Ha Hn Hs Hv.
  assert (Hsig : Rltb sigma 0 = false) by (apply Rltb_false; lra).
  assert (H20 : Reqb 2 0 = false) by (apply Reqb_false; lra).
  assert (H2n : Rltb 2 0 = false) by (apply Rltb_false; lra).
  assert (Hn0 : Reqb (- n) 0 = false) by (apply Reqb_false; lra).
  assert (Hnn : Rltb (- n) 0 = true) by (apply Rltb_true; lra).
  unfold crystal_ball_at.
  rewrite abs_Fin, (div_Fin n (Rabs alpha)), pow_square, sub_Fin, !neg_Fin by assumption.
  rewrite (pow_positive (n / Rabs alpha) n)
    by (try apply Rdiv_lt_0_compat; pose proof (Rabs_pos alpha); lra).
  rewrite (div_Fin _ 2), exp_Fin, mul_Fin by lra.
  destruct v as [r | | |]; [exfalso; apply Hv; exact I | | |].
  - (* +inf: the core, exp(-inf) *)
    simpl. rewrite Hsig. simpl. rewrite H20, H2n. simpl. rewrite H2n. simpl.
    f_equal. ring.
  - (* -inf: the tail, A * inf^(-n) *)
    simpl. rewrite Hsig. simpl. rewrite Hn0, Hnn. simpl.
    f_equal. ring.
  - (* NaN: neither comparison holds *)
    simpl. f_equal. ring.
Qed.

(** X4. With valid parameters, an element of x that is NaN or infinite
    gives 0: a NaN fails both comparisons and falls to the zero of the
    tail, +inf gives exp(-inf) and -inf gives A inf^(-n). NaN does not
    propagate from x to the result. *)
Theorem crystal_ball_nonfinite_input (x : ndarray) (alpha n mean sigma N : R) :
  Rabs alpha <> 0 -> 0 < n -> 0 < sigma ->
  Forall (fun v => ~ is_finite v) x ->
  crystal_ball x (Fin alpha) (Fin n) (Fin mean) (Fin sigma) (Fin N)
  = repeat (Fin 0) (List.length x).
Proof.
  intros Ha Hn Hs Hx.
  rewrite crystal_ball_elementwise by (apply guard_valid; assumption).
  induction Hx as [| v x Hv _ IH]; [reflexivity |].
  cbn [map List.length repeat].
  now rewrite crystal_ball_at_nonfinite, IH.
Qed.

Lemma crystal_ball_nonfinite_input_witness :
  (Rabs 1 <> 0 /\ 0 < 2 /\ 0 < 1 /\ Forall (fun v => ~ is_finite v) [NaN; PInf; NInf])
  /\ crystal_ball [NaN; PInf; NInf] (Fin 1) (Fin 2) (Fin 0) (Fin 1) (Fin 3)
     = [Fin 0; Fin 0; Fin 0].
Proof.
  assert (H1 : Rabs 1 <> 0) by (rewrite Rabs_R1; lra).
  assert (H2 : 0 < 2) by lra.
  assert (H3 : 0 < 1) by lra.
  assert (H4 : Forall (fun v => ~ is_finite v) [NaN; PInf; NInf])
    by (repeat constructor; intros []).
  split; [auto |].
  exact (crystal_ball_nonfinite_input [NaN; PInf; NInf] 1 2 0 1 3 H1 H2 H3 H4).
Defined.

Lemma above_junction (alpha mean sigma xi : R) :
  0 < sigma -> mean - Rabs alpha * sigma < xi -> - Rabs alpha < (xi - mean) / sigma.
Proof.
  intros Hs H.
  replace (- Rabs alpha) with ((- Rabs alpha * sigma) * / sigma) by (field; lra).
  unfold Rdiv. apply Rmult_lt_compat_r; [now apply Rinv_0_lt_compat | lra].
Qed.

(** X5. Above the junction (x > mean - |alpha| sigma) the Crystal Ball
    function is the Gaussian of the same mean, sigma and N without its
    normalisation: crystal_ball = sigma sqrt(2 pi) * gaussian. *)
Theorem crystal_ball_core_is_gaussian (x : list R) (alpha n mean sigma N : R) :
  Rabs alpha <> 0 -> 0 < n -> 0 < sigma ->
  Forall (fun xi => mean - Rabs alpha * sigma < xi) x ->
  crystal_ball (map Fin x) (Fin alpha) (Fin n) (Fin mean) (Fin sigma) (Fin N)
  = map (fun g => mul (Fin (sigma * R_sqrt.sqrt (2 * PI))) g)
        (gaussian (map Fin x) (Fin mean) (Fin sigma) (Fin N)).
Proof.
  intros Ha Hn Hs Hx. pose proof sqrt_two_pi_pos as Hpi.
  rewrite crystal_ball_real, gaussian_real by assumption.
  rewrite !map_map. apply map_ext_in. intros xi Hxi.
  rewrite Forall_forall in Hx. specialize (Hx xi Hxi).
  apply above_junction in Hx; [| assumption].
  rewrite mul_Fin. unfold crystal_ball_value.
  destruct (Rlt_dec (- Rabs alpha) ((xi - mean) / sigma)) as [_ | H];
    [| contradiction].
  replace (-0.5 * ((xi - mean) / sigma) ^ 2) with (- ((xi - mean) / sigma) ^ 2 / 2)
    by lra.
  f_equal. field. split; lra.
Qed.

Lemma crystal_ball_core_is_gaussian_witness :
  (Rabs 1 <> 0 /\ 0 < 2 /\ 0 < 1 /\ Forall (fun xi => 0 - Rabs 1 * 1 < xi) [0; 2])
  /\ crystal_ball (map Fin [0; 2]) (Fin 1) (Fin 2) (Fin 0) (Fin 1) (Fin 3)
     = map (fun g => mul (Fin (1 * R_sqrt.sqrt (2 * PI))) g)
           (gaussian (map Fin [0; 2]) (Fin 0) (Fin 1) (Fin 3)).
Proof.
  assert (H1 : Rabs 1 <> 0) by (rewrite Rabs_R1; lra).
  assert (H2 : 0 < 2) by lra.
  assert (H3 : 0 < 1) by lra.
  assert (H4 : Forall (fun xi => 0 - Rabs 1 * 1 < xi) [0; 2])
    by (repeat constructor; rewrite Rabs_R1; lra).
  split; [auto |].
  exact (crystal_ball_core_is_gaussian [0; 2] 1 2 0 1 3 H1 H2 H3 H4).
Defined.

(** X6. With invalid parameters [crystal_ball_mxb] is NaN everywhere,
    whatever the slope and the intercept: the background is added to the
    all-NaN array of [crystal_ball]. *)
Theorem crystal_ball_mxb_invalid_parameters
    (x : ndarray) (alpha n mean sigma N m b : npfloat) :
  eqb (Np.abs alpha) (Fin 0) = true \/ leb n (Fin 0) = true \/ leb sigma (Fin 0) = true ->
  crystal_ball_mxb x alpha n mean sigma N m b = repeat NaN (List.length x).
Proof.
  intros H. unfold crystal_ball_mxb.
  rewrite crystal_ball_guarded
    by (unfold guard; destruct H as [-> | [-> | ->]]; rewrite ?orb_true_r; reflexivity).
  unfold full_like.
  induction x as [| xi x IH]; [reflexivity |].
  cbn [map combine List.length repeat fst snd]. now rewrite IH.
Qed.

Lemma crystal_ball_mxb_invalid_parameters_witness :
  leb (Fin (-1)) (Fin 0) = true
  /\ crystal_ball_mxb [Fin 0; Fin 1] (Fin 1.5) (Fin (-1)) (Fin 0) (Fin 1) (Fin 1)
                      (Fin 2) (Fin 7)
     = [NaN; NaN].
Proof.
  assert (H : leb (Fin (-1)) (Fin 0) = true) by (apply Rleb_true; lra).
  split; [exact H |].
  exact (crystal_ball_mxb_invalid_parameters [Fin 0; Fin 1]
           (Fin 1.5) (Fin (-1)) (Fin 0) (Fin 1) (Fin 1) (Fin 2) (Fin 7)
           (or_intror (or_introl H))).
Defined.

(** ** The Gaussian *)

Lemma gaussian_real_nonzero (x : list R) (mean sigma N : R) :
  sigma <> 0 ->
  gaussian (map Fin x) (Fin mean) (Fin sigma) (Fin N)
  = map (fun xi => Fin (N * Rtrigo_def.exp (-0.5 * ((xi - mean) / sigma) ^ 2)
                        / (sigma * R_sqrt.sqrt (2 * PI)))) x.
Proof.
  intros Hs. pose proof sqrt_two_pi_pos as Hpi.
  unfold gaussian. rewrite sqrt_two_pi, mul_Fin, !map_map.
  apply map_ext. intros xi.
  rewrite sub_Fin, div_Fin by assumption.
  rewrite pow_square, mul_Fin, exp_Fin, mul_Fin.
  rewrite div_Fin by (apply Rmult_integral_contrapositive_currified; lra).
  rewrite <- Rsqr_pow2. unfold Rsqr. f_equal.
  rewrite (Rmult_comm N). reflexivity.
Qed.

(** X7. The Gaussian has no guard: at sigma = 0 it is NaN everywhere (0/0
    at x = mean, and exp(-inf) * N / 0 = 0/0 elsewhere), without raising. *)
Theorem gaussian_zero_sigma (x : list R) (mean N : R) :
  call_gaussian (map Fin x) [Fin mean; Fin 0; Fin N]
  = Returns (repeat NaN (List.length x)).
Proof.
  unfold call_gaussian. f_equal.
  unfold gaussian. rewrite sqrt_two_pi, !map_map.
  assert (H00 : Reqb 0 0 = true) by (now apply Reqb_true).
  assert (H20 : Reqb 2 0 = false) by (apply Reqb_false; lra).
  assert (H2n : Rltb 2 0 = false) by (apply Rltb_false; lra).
  assert (Hh0 : Reqb (-0.5) 0 = false) by (apply Reqb_false; lra).
  assert (Hhp : Rltb 0 (-0.5) = false) by (apply Rltb_false; lra).
  assert (Hz : forall r, Reqb (0 * r) 0 = true) by (intros r; apply Reqb_true; ring).
  induction x as [| xi x IH]; [reflexivity |].
  cbn [map List.length repeat]. rewrite IH. f_equal.
  rewrite sub_Fin. unfold div at 2. rewrite H00.
  destruct (Req_dec_T (xi - mean) 0) as [Hd | Hd].
  - rewrite (Reqb_true _ _ Hd). simpl. rewrite H20. reflexivity.
  - rewrite (Reqb_false _ _ Hd).
    destruct (Rlt_dec 0 (xi - mean)) as [Hpos | Hneg].
    + rewrite (Rltb_true _ _ Hpos). simpl.
      rewrite H20, H2n. simpl. unfold scale_inf. rewrite Hh0, Hhp. simpl.
      now rewrite !Hz.
    + rewrite (Rltb_false 0 (xi - mean)) by lra. simpl.
      rewrite H20, H2n. unfold is_odd_integer. rewrite is_integer_two, Int_part_IZR.
      simpl. unfold scale_inf. rewrite Hh0, Hhp. simpl.
      now rewrite !Hz.
Qed.

(** X8. For sigma > 0 the Gaussian is symmetric about the mean: its values
    at mean + d and mean - d are equal. *)
Theorem gaussian_symmetric (mean sigma N d : R) :
  0 < sigma ->
  gaussian [Fin (mean + d)] (Fin mean) (Fin sigma) (Fin N)
  = gaussian [Fin (mean - d)] (Fin mean) (Fin sigma) (Fin N).
Proof.
  intros Hs.
  change [Fin (mean + d)] with (map Fin [mean + d]).
  change [Fin (mean - d)] with (map Fin [mean - d]).
  rewrite !gaussian_real by assumption. cbn [map].
  replace (-0.5 * ((mean + d - mean) / sigma) ^ 2)
    with (-0.5 * ((mean - d - mean) / sigma) ^ 2); [reflexivity |].
  rewrite <- !Rsqr_pow2. unfold Rsqr. field. lra.
Qed.

Lemma gaussian_symmetric_witness :
  0 < 2
  /\ gaussian [Fin (1 + 3)] (Fin 1) (Fin 2) (Fin 22)
     = gaussian [Fin (1 - 3)] (Fin 1) (Fin 2) (Fin 22).
Proof.
  assert (H : 0 < 2) by lra.
  split; [exact H |].
  exact (gaussian_symmetric 1 2 22 3 H).
Defined.

(** X9. For sigma > 0 and N >= 0 every value of the Gaussian is a real
    number between 0 and the peak value N / (sigma sqrt(2 pi)). *)
Theorem gaussian_range (x : list R) (mean sigma N : R) :
  0 < sigma -> 0 <= N ->
  exists y : list R,
    gaussian (map Fin x) (Fin mean) (Fin sigma) (Fin N) = map Fin y
    /\ Forall (fun yi => 0 <= yi <= N / (sigma * R_sqrt.sqrt (2 * PI))) y.
Proof.
  intros Hs HN. pose proof sqrt_two_pi_pos as Hpi.
  exists (map (fun xi => N * Rtrigo_def.exp (-0.5 * ((xi - mean) / sigma) ^ 2)
                         / (sigma * R_sqrt.sqrt (2 * PI))) x).
  split; [rewrite gaussian_real by assumption; now rewrite map_map |].
  apply Forall_forall. intros yi Hyi.
  apply in_map_iff in Hyi. destruct Hyi as [xi [<- _]].
  set (u := -0.5 * ((xi - mean) / sigma) ^ 2).
  assert (Hu : 0 < Rtrigo_def.exp u <= 1).
  { split; [apply exp_pos |]. apply exp_nonpos_le_1. unfold u.
    rewrite <- Rsqr_pow2. pose proof (Rle_0_sqr ((xi - mean) / sigma)). lra. }
  assert (Hd : 0 < / (sigma * R_sqrt.sqrt (2 * PI)))
    by (apply Rinv_0_lt_compat, Rmult_lt_0_compat; lra).
  unfold Rdiv. split.
  - apply Rmult_le_pos; [apply Rmult_le_pos |]; lra.
  - apply Rmult_le_compat_r; [lra |].
    rewrite <- (Rmult_1_r N) at 2. apply Rmult_le_compat_l; lra.
Qed.

Lemma gaussian_range_witness :
  (0 < 2 /\ 0 <= 22)
  /\ exists y : list R,
      gaussian (map Fin [0; 1; 5]) (Fin 1) (Fin 2) (Fin 22) = map Fin y
      /\ Forall (fun yi => 0 <= yi <= 22 / (2 * R_sqrt.sqrt (2 * PI))) y.
Proof.
  assert (H1 : 0 < 2) by lra.
  assert (H2 : 0 <= 22) by lra.
  split; [auto |].
  exact (gaussian_range [0; 1; 5] 1 2 22 H1 H2).
Defined.

(** X10. Nothing keeps sigma positive in the Gaussian: changing the signs
    of sigma and of N together leaves every value unchanged, so
    (mean, -sigma, -N) fits the data exactly as well as (mean, sigma, N). *)
Theorem gaussian_sign_degeneracy (x : list R) (mean sigma N : R) :
  sigma <> 0 ->
  gaussian (map Fin x) (Fin mean) (Fin (- sigma)) (Fin (- N))
  = gaussian (map Fin x) (Fin mean) (Fin sigma) (Fin N).
Proof.
  intros Hs. pose proof sqrt_two_pi_pos as Hpi.
  rewrite !gaussian_real_nonzero by lra.
  apply map_ext. intros xi. f_equal.
  replace (-0.5 * ((xi - mean) / - sigma) ^ 2)
    with (-0.5 * ((xi - mean) / sigma) ^ 2)
    by (rewrite <- !Rsqr_pow2; unfold Rsqr; field; lra).
  field. split; lra.
Qed.

Lemma gaussian_sign_degeneracy_witness :
  2 <> 0
  /\ gaussian (map Fin [0; 1; 5]) (Fin 1) (Fin (- 2)) (Fin (- 22))
     = gaussian (map Fin [0; 1; 5]) (Fin 1) (Fin 2) (Fin 22).
Proof.
  assert (H : 2 <> 0) by lra.
  split; [exact H |].
  exact (gaussian_sign_degeneracy [0; 1; 5] 1 2 22 H).
Defined.

(** * Further properties of [fit_with_function] *)

Local Open Scope string_scope.

Lemma linspace_length (start stop : npfloat) (num : nat) :
  List.length (linspace start stop num) = num.
Proof.
  destruct num as [| [| k]]; try reflexivity.
  unfold linspace. rewrite length_app, length_map, length_seq. simpl. lia.
Qed.

Lemma linspace_last (start stop : npfloat) (k : nat) :
  last (linspace start stop (S (S k))) NaN = stop.
Proof. unfold linspace. apply last_last. Qed.

Lemma linspace_first (start stop : R) (k : nat) :
  nth 0 (linspace (Fin start) (Fin stop) (S (S k))) NaN = Fin start.
Proof.
  unfold linspace. cbn [seq map app nth].
  rewrite sub_Fin, div_Fin by (apply not_0_INR; discriminate).
  rewrite mul_Fin, add_Fin. f_equal. simpl. ring.
Qed.

Lemma model_function_length (fit_type : pyval) (x popt y : ndarray) :
  model_function fit_type x popt = Returns y -> List.length y = List.length x.
Proof.
  unfold model_function, call_crystal_ball, call_crystal_ball_mxb, call_gaussian.
  intros H.
  destruct (py_eq_str fit_type "crystal_ball");
    [| destruct (py_eq_str fit_type "crystal_ball_mxb")];
    repeat (destruct popt as [| ? popt]; try discriminate H);
    injection H as <-.
  - apply crystal_ball_length.
  - apply crystal_ball_mxb_length.
  - apply gaussian_length.
Qed.

Lemma fit_kinds_cases (fit_type : pyval) :
  In fit_type fit_kinds ->
  fit_type = PyStr "crystal_ball" \/ fit_type = PyStr "crystal_ball_mxb"
  \/ fit_type = PyStr "gaussian".
Proof. intros [<- | [<- | [<- | []]]]; auto. Qed.

Section Runs.

Variable curve_fit :
  callable -> ndarray -> ndarray -> ndarray -> outcome (ndarray * list ndarray).

(** follow a run of the method step by step, whatever each step does *)
Ltac step Hrun :=
  lazymatch type of Hrun with
  | bind (lift ?o) _ _ = _ =>
      rewrite bind_lift in Hrun; destruct o eqn:?
  | bind (call_curve_fit _ _ _ _ _) _ _ = _ =>
      unfold bind at 1, call_curve_fit in Hrun;
      lazymatch type of Hrun with
      | context [match ?o with Returns _ => _ | Raises _ => _ end] =>
          let popt := fresh "popt" in
          let pcov := fresh "pcov" in
          let Hcf := fresh "Hcf" in
          destruct o as [[popt pcov] |] eqn:Hcf; cbn [fst snd] in Hrun
      end
  | bind (print _) _ _ = _ =>
      unfold bind at 1, print in Hrun; cbn [ax_lines stdout solver_calls] in Hrun
  | ax_plot _ _ _ _ _ = _ =>
      unfold ax_plot in Hrun
  end.

(** X11. A histogram whose counts sum to zero (the empty histogram, or
    one with only zeros) stops every kind of fit with the
    ZeroDivisionError of [np.average], before the solver is called; the
    axis is untouched. *)
Theorem fit_zero_counts
    (bin_centers data bin_edges : ndarray) (fit_type : pyval)
    (range : npfloat * npfloat) (w : World) :
  In fit_type fit_kinds ->
  List.length bin_centers = List.length data ->
  eqb (sum data) (Fin 0) = true ->
  fit_with_function curve_fit bin_centers data bin_edges fit_type range w
  = (w, Raises ZeroDivisionError).
Proof.
  intros Hkind Hlen Hzero.
  assert (Havg : average bin_centers data = Raises ZeroDivisionError).
  { unfold average. rewrite Hlen, Nat.eqb_refl. cbn [negb]. now rewrite Hzero. }
  unfold fit_with_function.
  apply fit_kinds_cases in Hkind. destruct Hkind as [-> | [-> | ->]];
    cbn [py_eq_str String.eqb Ascii.eqb Bool.eqb];
    now rewrite bind_lift, Havg.
Qed.

(** X12. A fit that raises, at whatever step, has drawn nothing: the lines
    of the axis are those it had before. *)
Theorem fit_raises_draws_nothing
    (bin_centers data bin_edges : ndarray) (fit_type : pyval)
    (range : npfloat * npfloat) (w w' : World) (err : exn) :
  fit_with_function curve_fit bin_centers data bin_edges fit_type range w
  = (w', Raises err) ->
  ax_lines w' = ax_lines w.
Proof.
  intros Hrun. unfold fit_with_function in Hrun.
  remember (linspace (fst range) (snd range) 1000) as x eqn:Hx in Hrun.
  destruct (py_eq_str fit_type "crystal_ball");
    [| destruct (py_eq_str fit_type "crystal_ball_mxb");
       [| destruct (py_eq_str fit_type "gaussian")]];
    repeat step Hrun;
    apply pair_equal_spec in Hrun; destruct Hrun as [<- Ho];
    solve [reflexivity | discriminate Ho].
Qed.

(** X13. Only the fit with a linear background prints: a fit of any other
    kind leaves standard output as it was, however it ends. *)
Theorem fit_prints_only_with_background
    (bin_centers data bin_edges : ndarray) (fit_type : pyval)
    (range : npfloat * npfloat) (w w' : World) (o : outcome unit) :
  fit_type <> PyStr "crystal_ball_mxb" ->
  fit_with_function curve_fit bin_centers data bin_edges fit_type range w = (w', o) ->
  stdout w' = stdout w.
Proof.
  intros Hkind Hrun. unfold fit_with_function in Hrun.
  remember (linspace (fst range) (snd range) 1000) as x eqn:Hx in Hrun.
  rewrite (py_eq_str_false fit_type "crystal_ball_mxb") in Hrun by assumption.
  destruct (py_eq_str fit_type "crystal_ball");
    [| destruct (py_eq_str fit_type "gaussian")];
    repeat step Hrun;
    apply pair_equal_spec in Hrun; destruct Hrun as [<- _];
    reflexivity.
Qed.

(** X14. A fit calls the solver at most once (there is no second attempt)
    and adds at most one line to the axis, after those already there. *)
Theorem fit_at_most_one_call_and_line
    (bin_centers data bin_edges : ndarray) (fit_type : pyval)
    (range : npfloat * npfloat) (w w' : World) (o : outcome unit) :
  fit_with_function curve_fit bin_centers data bin_edges fit_type range w = (w', o) ->
  (solver_calls w' = solver_calls w
   \/ exists call, solver_calls w' = (solver_calls w ++ [call])%list)
  /\ (ax_lines w' = ax_lines w
      \/ exists line, ax_lines w' = (ax_lines w ++ [line])%list).
Proof.
  intros Hrun. unfold fit_with_function in Hrun.
  remember (linspace (fst range) (snd range) 1000) as x eqn:Hx in Hrun.
  destruct (py_eq_str fit_type "crystal_ball");
    [| destruct (py_eq_str fit_type "crystal_ball_mxb");
       [| destruct (py_eq_str fit_type "gaussian")]];
    repeat step Hrun;
    apply pair_equal_spec in Hrun; destruct Hrun as [<- _];
    cbn [ax_lines solver_calls]; split; eauto.
Qed.

(** X15. A fit that returns has called the solver once, with the model
    function of its kind on (bin_centers, data), and has added one line to
    the axis: drawn with 'r-', over the 1000 points of
    [np.linspace] over the range, the last of which is range[1], with the
    model function at the solver's parameters as its 1000 ordinates. *)
Theorem fit_draws_the_fitted_curve
    (bin_centers data bin_edges : ndarray) (fit_type : pyval)
    (range : npfloat * npfloat) (w w' : World) :
  fit_with_function curve_fit bin_centers data bin_edges fit_type range w
  = (w', Returns tt) ->
  In fit_type fit_kinds ->
  exists (call : SolverCall) (popt : ndarray) (pcov : list ndarray)
         (x y : ndarray) (label : string),
    x = linspace (fst range) (snd range) 1000
    /\ solver_calls w' = (solver_calls w ++ [call])%list
    /\ call_f call = model_function fit_type
    /\ call_xdata call = bin_centers
    /\ call_ydata call = data
    /\ curve_fit (call_f call) (call_xdata call) (call_ydata call) (call_p0 call)
       = Returns (popt, pcov)
    /\ model_function fit_type x popt = Returns y
    /\ ax_lines w' = (ax_lines w ++ [mkLine x y "r-" label])%list
    /\ List.length x = 1000%nat
    /\ List.length y = 1000%nat
    /\ last x NaN = snd range.
Proof.
  intros Hrun Hkind. unfold fit_with_function in Hrun.
  remember (linspace (fst range) (snd range) 1000) as x eqn:Hx in Hrun.
  assert (Hlen : List.length x = 1000%nat) by (rewrite Hx; apply linspace_length).
  assert (Hlast : last x NaN = snd range) by (rewrite Hx; apply linspace_last).
  apply fit_kinds_cases in Hkind. destruct Hkind as [-> | [-> | ->]];
    cbn [py_eq_str String.eqb Ascii.eqb Bool.eqb] in Hrun;
    repeat step Hrun;
    apply pair_equal_spec in Hrun; destruct Hrun as [<- Ho];
    try discriminate Ho;
    match goal with
    | Hsolved : curve_fit ?f _ _ ?p0 = Returns (?p, ?c),
      H : ?f x ?p = Returns ?y
      |- exists _ _ _ _ _ _, _ /\ _ /\ _ = model_function ?ft /\ _ =>
        pose proof (model_function_length ft x p y H) as Hy;
        exists (mkCall f bin_centers data p0), p, c, x, y;
        eexists;
        repeat split; try reflexivity; try eassumption; try congruence
    end.
Qed.

End Runs.

(** a histogram with two empty bins *)
Lemma zero_counts_run :
  fit_with_function failing_solver [Fin 0; Fin 1] [Fin 0; Fin 0]
    [Fin (-0.5); Fin 0.5; Fin 1.5] (PyStr "gaussian") (Fin (-1), Fin 1) empty_world
  = (empty_world, Raises ZeroDivisionError).
Proof.
  unfold fit_with_function. cbn [py_eq_str String.eqb Ascii.eqb Bool.eqb].
  rewrite bind_lift. unfold average. cbn [List.length Nat.eqb negb].
  unfold sum. cbn [fold_left add]. unfold eqb.
  rewrite Reqb_true by lra. reflexivity.
Defined.

Lemma fit_zero_counts_witness :
  (In (PyStr "crystal_ball") fit_kinds
   /\ List.length [Fin 0; Fin 1] = List.length [Fin 0; Fin 0]
   /\ eqb (sum [Fin 0; Fin 0]) (Fin 0) = true)
  /\ fit_with_function failing_solver [Fin 0; Fin 1] [Fin 0; Fin 0]
       [Fin (-0.5); Fin 0.5; Fin 1.5] (PyStr "crystal_ball") (Fin (-1), Fin 1)
       empty_world
     = (empty_world, Raises ZeroDivisionError).
Proof.
  assert (Hk : In (PyStr "crystal_ball") fit_kinds) by (left; reflexivity).
  assert (Hz : eqb (sum [Fin 0; Fin 0]) (Fin 0) = true)
    by (unfold sum; cbn [fold_left add]; unfold eqb; apply Reqb_true; lra).
  split; [auto |].
  exact (fit_zero_counts failing_solver [Fin 0; Fin 1] [Fin 0; Fin 0]
           [Fin (-0.5); Fin 0.5; Fin 1.5] (PyStr "crystal_ball") (Fin (-1), Fin 1)
           empty_world Hk eq_refl Hz).
Defined.

Lemma fit_raises_draws_nothing_witness :
  fit_with_function failing_solver [Fin 0; Fin 1] [Fin 0; Fin 0]
    [Fin (-0.5); Fin 0.5; Fin 1.5] (PyStr "gaussian") (Fin (-1), Fin 1) empty_world
  = (empty_world, Raises ZeroDivisionError)
  /\ ax_lines empty_world = ax_lines empty_world.
Proof.
  split; [exact zero_counts_run |].
  exact (fit_raises_draws_nothing failing_solver _ _ _ _ _ _ _ _ zero_counts_run).
Defined.

Lemma fit_prints_only_with_background_witness :
  PyStr "gaussian" <> PyStr "crystal_ball_mxb"
  /\ stdout (fst (fit_with_function scenario_solver (map Fin scenario_centers)
                    (map Fin scenario_counts) (map Fin scenario_edges)
                    (PyStr "gaussian") (Fin (-3), Fin 3) empty_world))
     = stdout empty_world.
Proof.
  assert (H : PyStr "gaussian" <> PyStr "crystal_ball_mxb") by discriminate.
  split; [exact H |].
  exact (fit_prints_only_with_background scenario_solver _ _ _ _ _ _ _ _ H
           (surjective_pairing _)).
Defined.

Lemma fit_draws_the_fitted_curve_witness :
  exists w' : World,
    fit_with_function scenario_solver (map Fin scenario_centers)
      (map Fin scenario_counts) (map Fin scenario_edges)
      (PyStr "gaussian") (Fin (-3), Fin 3) empty_world
    = (w', Returns tt)
    /\ In (PyStr "gaussian") fit_kinds
    /\ exists (x y : ndarray) (label : string),
        ax_lines w' = [mkLine x y "r-" label]
        /\ List.length x = 1000%nat /\ List.length y = 1000%nat
        /\ last x NaN = Fin 3.
Proof.
  destruct scenario_run as [call Hrun].
  assert (Hkind : In (PyStr "gaussian") fit_kinds) by (right; right; left; reflexivity).
  eexists. split; [exact Hrun |]. split; [exact Hkind |].
  destruct (fit_draws_the_fitted_curve scenario_solver _ _ _ _ _ _ _ Hrun Hkind)
    as [c [popt [pcov [x [y [label H]]]]]].
  exists x, y, label. repeat split; apply H.
Defined.

Lemma fit_at_most_one_call_and_line_witness :
  let r := fit_with_function scenario_solver (map Fin scenario_centers)
             (map Fin scenario_counts) (map Fin scenario_edges)
             (PyStr "gaussian") (Fin (-3), Fin 3) empty_world in
  (solver_calls (fst r) = solver_calls empty_world
   \/ exists call, solver_calls (fst r) = (solver_calls empty_world ++ [call])%list)
  /\ (ax_lines (fst r) = ax_lines empty_world
      \/ exists line, ax_lines (fst r) = (ax_lines empty_world ++ [line])%list).
Proof.
  cbv zeta.
  exact (fit_at_most_one_call_and_line scenario_solver _ _ _ _ _ _ _ _
           (surjective_pairing _)).
Defined.

(** ** The initial guess and the histogram *)

Local Open Scope R_scope.




Lemma histogram_integral_uniform (h : R) (counts edges : list R) :
  List.length edges = S (List.length counts) ->
  (forall i, (i < List.length counts)%nat -> nth (S i) edges 0 - nth i edges 0 = h) ->
  histogram_integral counts edges = h * Rsum counts.
Proof.
  intros Hlen Hh.
  rewrite <- histogram_integral_Rdiff by assumption.
  revert edges Hlen Hh. induction counts as [| c counts IH]; intros edges Hlen Hh.
  - simpl. ring.
  - destruct edges as [| e0 [| e1 edges]]; try discriminate Hlen.
    change (Rdiff (e0 :: e1 :: edges)) with ((e1 - e0) :: Rdiff (e1 :: edges)).
    cbn [combine map Rsum fold_right fst snd].
    fold (Rsum counts).
    fold (Rsum (map (fun p : R * R => fst p * snd p) (combine counts (Rdiff (e1 :: edges))))).
    rewrite IH.
    + pose proof (Hh 0%nat) as H0. cbn [nth List.length] in H0.
      rewrite H0 by lia. ring.
    + simpl in Hlen. simpl. lia.
    + intros i Hi. apply (Hh (S i)). simpl. lia.
Qed.

Lemma guess_of_fit
    (curve_fit : callable -> ndarray -> ndarray -> ndarray -> outcome (ndarray * list ndarray))
    (centers counts edges : list R) (fit_type : pyval)
    (range : npfloat * npfloat) (w : World) :
  List.length centers = List.length counts ->
  List.length edges = S (List.length counts) ->
  Forall (fun r => 0 <= r) counts ->
  0 < Rsum counts ->
  In fit_type fit_kinds ->
  exists call : SolverCall,
    solver_calls (fst (fit_with_function curve_fit (map Fin centers) (map Fin counts)
                         (map Fin edges) fit_type range w))
    = (solver_calls w ++ [call])%list
    /\ moments_of_guess fit_type (call_p0 call)
       = [Fin (weighted_average centers counts);
          Fin (R_sqrt.sqrt (weighted_variance centers counts
                              (weighted_average centers counts)))]
    /\ normalization_of_guess fit_type (call_p0 call)
       = Fin (histogram_integral counts edges).
Proof.
  intros H1 H2 H3 H4 Hkind.
  apply fit_kinds_cases in Hkind. destruct Hkind as [-> | [-> | ->]].
  - rewrite solver_call_crystal_ball by assumption.
    eexists. split; [reflexivity |]. split; reflexivity.
  - rewrite solver_call_crystal_ball_mxb by assumption.
    eexists. split; [reflexivity |]. split; reflexivity.
  - rewrite solver_call_gaussian by assumption.
    eexists. split; [reflexivity |]. split; reflexivity.
Qed.




(** X17. When all bins have the same width h, the normalization of the
    initial guess is h times the total of the counts, for every kind of
    fit. *)
Theorem initial_guess_uniform_bins
    (curve_fit : callable -> ndarray -> ndarray -> ndarray -> outcome (ndarray * list ndarray))
    (centers counts edges : list R) (h : R) (fit_type : pyval)
    (range : npfloat * npfloat) (w : World) :
  List.length centers = List.length counts ->
  List.length edges = S (List.length counts) ->
  Forall (fun r => 0 <= r) counts ->
  0 < Rsum counts ->
  (forall i, (i < List.length counts)%nat -> nth (S i) edges 0 - nth i edges 0 = h) ->
  In fit_type fit_kinds ->
  exists call : SolverCall,
    solver_calls (fst (fit_with_function curve_fit (map Fin centers) (map Fin counts)
                         (map Fin edges) fit_type range w))
    = (solver_calls w ++ [call])%list
    /\ normalization_of_guess fit_type (call_p0 call) = Fin (h * Rsum counts).
Proof.
  intros H1 H2 H3 H4 Hh Hkind.
  destruct (guess_of_fit curve_fit centers counts edges fit_type range w
              H1 H2 H3 H4 Hkind) as [call [Hcall [_ Hn]]].
  exists call. split; [exact Hcall |].
  rewrite Hn. f_equal. now apply histogram_integral_uniform.
Qed.

Lemma scenario_uniform_bins :
  forall i, (i < List.length scenario_counts)%nat ->
            nth (S i) scenario_edges 0 - nth i scenario_edges 0 = 1.
Proof.
  intros i Hi. unfold scenario_counts, scenario_edges in *.
  do 5 (destruct i as [| i]; [simpl; lra |]).
  simpl in Hi. lia.
Defined.

Lemma initial_guess_uniform_bins_witness :
  (List.length scenario_centers = List.length scenario_counts
   /\ List.length scenario_edges = S (List.length scenario_counts)
   /\ Forall (fun r => 0 <= r) scenario_counts
   /\ 0 < Rsum scenario_counts
   /\ In (PyStr "gaussian") fit_kinds)
  /\ exists call : SolverCall,
      solver_calls (fst (fit_with_function failing_solver (map Fin scenario_centers)
                           (map Fin scenario_counts) (map Fin scenario_edges)
                           (PyStr "gaussian") (Fin (-3), Fin 3) empty_world))
      = (solver_calls empty_world ++ [call])%list
      /\ normalization_of_guess (PyStr "gaussian") (call_p0 call)
         = Fin (1 * Rsum scenario_counts).
Proof.
  assert (Hk : In (PyStr "gaussian") fit_kinds) by (right; right; left; reflexivity).
  split.
  - repeat split; try assumption;
      [apply scenario_counts_nonneg | apply scenario_counts_pos].
  - exact (initial_guess_uniform_bins failing_solver
             scenario_centers scenario_counts scenario_edges 1
             (PyStr "gaussian") (Fin (-3), Fin 3) empty_world
             eq_refl eq_refl scenario_counts_nonneg scenario_counts_pos
             scenario_uniform_bins Hk).
Defined.

(** * Properties of the annotations *)

(** ** [mark_pot] *)

Lemma py_int_IZR (m : Z) : py_int (Fin (IZR m)) = Returns m.
Proof.
  unfold py_int. f_equal. unfold Rltb.
  destruct (Rlt_dec (IZR m) 0).
  - rewrite <- opp_IZR, Int_part_IZR. lia.
  - apply Int_part_IZR.
Qed.





(** X19. Unless the exposure is a positive finite number, [mark_pot]
    raises before it touches the axis: [int] refuses the -inf that the
    logarithm of zero gives and +inf (OverflowError), and the NaN that the
    logarithm of a negative number, of -inf or of NaN gives (ValueError). *)
Theorem mark_pot_needs_positive_exposure
    (exposure : npfloat) (ax : Axes) (horizontal : bool) :
  (forall e : R, exposure = Fin e -> e <= 0) ->
  mark_pot exposure ax horizontal = Raises ValueError
  \/ mark_pot exposure ax horizontal = Raises (OtherError "OverflowError").
Proof.
  intros H. unfold mark_pot, log10.
  destruct exposure as [e | | |]; try (cbn; auto; fail).
  specialize (H e eq_refl).
  rewrite (Rltb_false 0 e) by assumption.
  destruct (Req_dec_T e 0) as [-> | Hne].
  - rewrite (Reqb_true 0 0) by reflexivity. cbn. auto.
  - rewrite (Reqb_false e 0) by assumption. cbn. auto.
Qed.

Lemma mark_pot_needs_positive_exposure_witness :
  (forall e : R, Fin 0 = Fin e -> e <= 0)
  /\ (mark_pot (Fin 0) (empty_axes (Fin 0, Fin 1) (Fin 0, Fin 10)) false
      = Raises ValueError
      \/ mark_pot (Fin 0) (empty_axes (Fin 0, Fin 1) (Fin 0, Fin 10)) false
         = Raises (OtherError "OverflowError")).
Proof.
  assert (H : forall e : R, Fin 0 = Fin e -> e <= 0)
    by (intros e He; injection He as <-; lra).
  split; [exact H |].
  exact (mark_pot_needs_positive_exposure (Fin 0)
           (empty_axes (Fin 0, Fin 1) (Fin 0, Fin 10)) false H).
Defined.

(** X20. On an axis with finite limits x0 < x1 and y0 < y1, [mark_pot]
    puts its text above the top of the axis; with [horizontal] it is
    right-aligned at a point between the two sides, otherwise it is
    left of the left side, anchored by its top and turned by 90 degrees. *)
Theorem mark_pot_position
    (exposure x0 x1 y0 y1 : R) (ax : Axes) (horizontal : bool) :
  0 < exposure -> x0 < x1 -> y0 < y1 ->
  get_xlim ax = (Fin x0, Fin x1) -> get_ylim ax = (Fin y0, Fin y1) ->
  exists (usex usey : R) (t : Text),
    mark_pot (Fin exposure) ax horizontal = Returns (ax_text ax t)
    /\ text_x t = Fin usex /\ text_y t = Fin usey
    /\ y1 < usey
    /\ (if horizontal
        then x0 < usex < x1
             /\ text_horizontalalignment t = Some "right"%string
             /\ text_rotation t = None
        else usex < x0
             /\ text_verticalalignment t = Some "top"%string
             /\ text_rotation t = Some 90%nat).
Proof.
  intros He Hx Hy Hxlim Hylim.
  unfold mark_pot, log10. rewrite (Rltb_true 0 exposure) by assumption.
  cbn [floor]. rewrite py_int_IZR, Hxlim, Hylim. cbn [fst snd].
  rewrite !sub_Fin, !mul_Fin, add_Fin, !sub_Fin.
  destruct horizontal; do 3 eexists; (split; [reflexivity |]);
    cbn [text_x text_y text_horizontalalignment text_verticalalignment text_rotation];
    repeat split; try reflexivity; nra.
Qed.

Lemma mark_pot_position_witness :
  (0 < 250 /\ 0 < 1 /\ 0 < 10)
  /\ exists (usex usey : R) (t : Text),
      mark_pot (Fin 250) (empty_axes (Fin 0, Fin 1) (Fin 0, Fin 10)) true
      = Returns (ax_text (empty_axes (Fin 0, Fin 1) (Fin 0, Fin 10)) t)
      /\ text_x t = Fin usex /\ text_y t = Fin usey
      /\ 10 < usey
      /\ (0 < usex < 1
          /\ text_horizontalalignment t = Some "right"%string
          /\ text_rotation t = None).
Proof.
  assert (H1 : 0 < 250) by lra.
  assert (H2 : 0 < 1) by lra.
  assert (H3 : 0 < 10) by lra.
  split; [auto |].
  exact (mark_pot_position 250 0 1 0 10 (empty_axes (Fin 0, Fin 1) (Fin 0, Fin 10))
           true H1 H2 H3 eq_refl eq_refl).
Defined.

(** ** [mark_preliminary] *)

(** X21. On an axis with finite limits x0 < x1 and y0 < y1,
    [mark_preliminary] adds one text after those the axis has: the label
    as given, in size 14, above the top of the axis and between its two
    sides; the limits and the collections are left as they are. *)
Theorem mark_preliminary_position
    (x0 x1 y0 y1 : R) (ax : Axes) (label : string) :
  x0 < x1 -> y0 < y1 ->
  get_xlim ax = (Fin x0, Fin x1) -> get_ylim ax = (Fin y0, Fin y1) ->
  exists (usex usey : R),
    mark_preliminary ax label
    = mkAxes (get_xlim ax) (get_ylim ax)
             (ax_texts ax ++ [mkText (Fin usex) (Fin usey) label 14 "#d67a11"
                                     None None None])
             (ax_collections ax)
    /\ x0 < usex < x1
    /\ y1 < usey.
Proof.
  intros Hx Hy Hxlim Hylim.
  unfold mark_preliminary, ax_text. rewrite Hxlim, Hylim. cbn [fst snd].
  rewrite !sub_Fin, !mul_Fin, !add_Fin.
  do 2 eexists. split; [reflexivity |]. split; nra.
Qed.

Lemma mark_preliminary_position_witness :
  (0 < 1 /\ 0 < 10)
  /\ exists (usex usey : R),
      mark_preliminary (empty_axes (Fin 0, Fin 1) (Fin 0, Fin 10)) "Preliminary"
      = mkAxes (Fin 0, Fin 1) (Fin 0, Fin 10)
               [mkText (Fin usex) (Fin usey) "Preliminary" 14 "#d67a11" None None None]
               []
      /\ 0 < usex < 1
      /\ 10 < usey.
Proof.
  assert (H1 : 0 < 1) by lra.
  assert (H2 : 0 < 10) by lra.
  split; [auto |].
  exact (mark_preliminary_position 0 1 0 10 (empty_axes (Fin 0, Fin 1) (Fin 0, Fin 10))
           "Preliminary" H1 H2 eq_refl eq_refl).
Defined.

(** ** [draw_error_boxes] *)

Lemma getitem_in_range (a : ndarray) (i : nat) :
  (i < List.length a)%nat -> getitem a i = Returns (nth i a NaN).
Proof.
  intros Hi. unfold getitem.
  destruct (nth_error a i) as [v |] eqn:E.
  - now rewrite (nth_error_nth a i NaN E).
  - apply nth_error_None in E. lia.
Qed.

Lemma getitem_out_of_range (a : ndarray) (i : nat) :
  (List.length a <= i)%nat -> getitem a i = Raises IndexError.
Proof.
  intros Hi. unfold getitem.
  apply nth_error_None in Hi. now rewrite Hi.
Qed.

Lemma getitem_cases (a : ndarray) (i : nat) :
  (exists v, getitem a i = Returns v) \/ getitem a i = Raises IndexError.
Proof.
  unfold getitem. destruct (nth_error a i); eauto.
Qed.

Lemma error_boxes_returns (idx : list nat) (x y xerr yerr : ndarray) :
  Forall (fun i => (i < List.length x)%nat /\ (i < List.length y)%nat
                   /\ (i < List.length xerr)%nat /\ (i < List.length yerr)%nat) idx ->
  error_boxes idx x y xerr yerr = Returns (map (box_at x y xerr yerr) idx).
Proof.
  induction 1 as [| i idx [Hx [Hy [Hxe Hye]]] _ IH]; [reflexivity |].
  cbn [error_boxes map].
  rewrite !getitem_in_range, IH by assumption. reflexivity.
Qed.

Lemma error_boxes_raises (idx : list nat) (x y xerr yerr : ndarray) :
  Exists (fun i => (List.length x <= i)%nat \/ (List.length y <= i)%nat
                   \/ (List.length xerr <= i)%nat \/ (List.length yerr <= i)%nat) idx ->
  error_boxes idx x y xerr yerr = Raises IndexError.
Proof.
  induction idx as [| i idx IH]; intros H; [inversion H |].
  cbn [error_boxes].
  destruct (getitem_cases x i) as [[xi Hx] | ->]; [rewrite Hx | reflexivity].
  destruct (getitem_cases xerr i) as [[xerri Hxerr] | ->];
    [rewrite Hxerr | reflexivity].
  destruct (getitem_cases y i) as [[yi Hy] | ->]; [rewrite Hy | reflexivity].
  destruct (getitem_cases yerr i) as [[yerri Hyerr] | ->];
    [rewrite Hyerr | reflexivity].
  inversion H as [? ? Hi | ? ? Htail]; subst.
  - exfalso.
    destruct Hi as [Hi | [Hi | [Hi | Hi]]];
      apply getitem_out_of_range in Hi; congruence.
  - now rewrite IH.
Qed.

(** X22. [draw_error_boxes] makes one box per element of x and adds them
    to the axis as one collection (an empty one when x is empty), when y,
    xerr and yerr are at least as long as x, the elements beyond len(x)
    being ignored; when one of them is shorter than x it raises an
    IndexError and adds nothing. *)
Theorem draw_error_boxes_lengths
    (ax : Axes) (x y xerr yerr : ndarray) (kwargs : list (string * string)) :
  ((List.length x <= List.length y)%nat
   /\ (List.length x <= List.length xerr)%nat
   /\ (List.length x <= List.length yerr)%nat ->
   exists boxes : list Rectangle,
     draw_error_boxes ax x y xerr yerr kwargs
     = Returns (mkAxes (get_xlim ax) (get_ylim ax) (ax_texts ax)
                       (ax_collections ax ++ [mkPatchCollection boxes kwargs]))
     /\ List.length boxes = List.length x)
  /\ ((List.length y < List.length x)%nat
      \/ (List.length xerr < List.length x)%nat
      \/ (List.length yerr < List.length x)%nat ->
      draw_error_boxes ax x y xerr yerr kwargs = Raises IndexError).
Proof.
  unfold draw_error_boxes. split.
  - intros [Hy [Hxe Hye]].
    rewrite error_boxes_returns.
    + eexists. split; [reflexivity |]. now rewrite length_map, length_seq.
    + apply Forall_forall. intros i Hi. apply in_seq in Hi. lia.
  - intros H. rewrite error_boxes_raises; [reflexivity |].
    apply Exists_exists.
    destruct H as [H | [H | H]].
    + exists (List.length y). split; [apply in_seq; lia | auto].
    + exists (List.length xerr). split; [apply in_seq; lia | auto].
    + exists (List.length yerr). split; [apply in_seq; lia | auto].
Qed.

Lemma draw_error_boxes_lengths_witness :
  ((List.length [Fin 1; Fin 2] <= List.length [Fin 5; Fin 6; Fin 7])%nat
   /\ (List.length [Fin 1; Fin 2] <= List.length [Fin 1; Fin 1])%nat
   /\ (List.length [Fin 1; Fin 2] <= List.length [Fin 1; Fin 1])%nat)
  /\ exists boxes : list Rectangle,
      draw_error_boxes (empty_axes (Fin 0, Fin 1) (Fin 0, Fin 10))
        [Fin 1; Fin 2] [Fin 5; Fin 6; Fin 7] [Fin 1; Fin 1] [Fin 1; Fin 1] []
      = Returns (mkAxes (Fin 0, Fin 1) (Fin 0, Fin 10) []
                        [mkPatchCollection boxes []])
      /\ List.length boxes = 2%nat.
Proof.
  assert (H : (List.length [Fin 1; Fin 2] <= List.length [Fin 5; Fin 6; Fin 7])%nat
              /\ (List.length [Fin 1; Fin 2] <= List.length [Fin 1; Fin 1])%nat
              /\ (List.length [Fin 1; Fin 2] <= List.length [Fin 1; Fin 1])%nat)
    by (simpl; lia).
  split; [exact H |].
  exact (proj1 (draw_error_boxes_lengths (empty_axes (Fin 0, Fin 1) (Fin 0, Fin 10))
                  [Fin 1; Fin 2] [Fin 5; Fin 6; Fin 7] [Fin 1; Fin 1] [Fin 1; Fin 1] [])
               H).
Defined.

Lemma nth_map_Fin (a : list R) (i : nat) :
  (i < List.length a)%nat -> nth i (map Fin a) NaN = Fin (nth i a 0).
Proof.
  intros Hi. rewrite (nth_indep _ NaN (Fin 0)) by (now rewrite length_map).
  apply map_nth.
Qed.

(** X23. For real data of equal lengths the i-th box starts at
    x[i] - xerr[i] and spans y[i] - yerr[i] to y[i] + yerr[i], whatever
    the sign of yerr[i]. Its width is 2 |xerr[i]|: with xerr[i] >= 0 the
    box ends at x[i] + xerr[i] and is centred on the point; with
    xerr[i] < 0 it starts to the right of x[i] and ends at
    x[i] - 3 xerr[i], the absolute value being taken for the width only. *)
Theorem draw_error_boxes_geometry
    (ax : Axes) (x y xerr yerr : list R) (kwargs : list (string * string)) :
  List.length y = List.length x ->
  List.length xerr = List.length x ->
  List.length yerr = List.length x ->
  exists boxes : list Rectangle,
    draw_error_boxes ax (map Fin x) (map Fin y) (map Fin xerr) (map Fin yerr) kwargs
    = Returns (add_collection ax (mkPatchCollection boxes kwargs))
    /\ forall i : nat, (i < List.length x)%nat ->
         let b := nth i boxes (mkRectangle (NaN, NaN) NaN NaN) in
         let xi := nth i x 0 in
         let yi := nth i y 0 in
         let xe := nth i xerr 0 in
         let ye := nth i yerr 0 in
         rect_left b = Fin (xi - xe)
         /\ rect_bottom b = Fin (yi - ye)
         /\ rect_top b = Fin (yi + ye)
         /\ (0 <= xe -> rect_right b = Fin (xi + xe))
         /\ (xe < 0 -> rect_right b = Fin (xi - 3 * xe) /\ xi < xi - xe).
Proof.
  intros Hy Hxe Hye. unfold draw_error_boxes.
  rewrite error_boxes_returns
    by (apply Forall_forall; intros i Hi; apply in_seq in Hi;
        rewrite !length_map in *; lia).
  eexists. split; [reflexivity |].
  intros i Hi. cbv zeta. rewrite length_map.
  rewrite (nth_indep _ _ (box_at (map Fin x) (map Fin y) (map Fin xerr) (map Fin yerr) 0))
    by (now rewrite length_map, length_seq).
  rewrite map_nth, seq_nth by assumption. cbn [Nat.add].
  unfold box_at, rect_left, rect_right, rect_bottom, rect_top.
  cbn [rect_xy rect_width rect_height fst snd].
  rewrite !nth_map_Fin by lia.
  rewrite abs_Fin, !sub_Fin, !mul_Fin, !add_Fin.
  repeat split.
  - f_equal. ring.
  - intros Hpos. f_equal. rewrite Rabs_right by lra. ring.
  - f_equal. rewrite Rabs_left by assumption. ring.
  - lra.
Qed.

Lemma draw_error_boxes_geometry_witness :
  (List.length [5; 6] = List.length [1; 2]
   /\ List.length [0.5; -0.5] = List.length [1; 2]
   /\ List.length [1; 1] = List.length [1; 2])
  /\ exists boxes : list Rectangle,
      draw_error_boxes (empty_axes (Fin 0, Fin 1) (Fin 0, Fin 10))
        (map Fin [1; 2]) (map Fin [5; 6]) (map Fin [0.5; -0.5]) (map Fin [1; 1]) []
      = Returns (add_collection (empty_axes (Fin 0, Fin 1) (Fin 0, Fin 10))
                   (mkPatchCollection boxes [])).
Proof.
  split; [repeat split |].
  destruct (draw_error_boxes_geometry (empty_axes (Fin 0, Fin 1) (Fin 0, Fin 10))
              [1; 2] [5; 6] [0.5; -0.5] [1; 1] [] eq_refl eq_refl eq_refl)
    as [boxes [H _]].
  exists boxes. exact H.
Defined.
